(** * node-it-docker: lifecycle of an ephemeral integration-test database container

    The repository holds two variants of one CommonJS module:
    - [src/node-it-docker.js], written against the [dockerode] client
      (module [Dockerode] below);
    - [src/unnamed/part_000], written against [node-docker-api]
      (module [NodeDockerApi] below).

    Both are orchestration code over two external collaborators, the container
    engine client and the [mysql] driver.  Every asynchronous function is
    embedded as a finite tree of calls to those collaborators ([Prog]); an
    environment ([Env]) answers each call, and [run] produces the outcome of the
    promise together with the calls that were made, in order.

    Conventions: a handle built by [getContainer], [getNetwork] or
    [network.get] is the id it was built from; [null] and [undefined] are
    [None]; wall-clock time is not modelled (the elapsed time only appears in a
    log line); log lines and sleeps are calls whose answer is ignored. *)

From Stdlib Require Import ZArith List String Bool Lia.
From Stdlib Require Import DecimalString.
From Stdlib Require Import Sorting.Sorted.
Import ListNotations.
Local Open Scope string_scope.
Local Open Scope list_scope.

(** ** Values exchanged with the collaborators *)

(** Exceptions and promise rejections. *)
Inductive Err : Type :=
| TypeError (msg : string)      (* raised by the JavaScript runtime itself *)
| InvalidLength                 (* the object [{ msg: 'Invalid length' }] *)
| External (code : string).     (* an error of the engine client or the db driver *)

Inductive Result (A : Type) : Type :=
| Ok (a : A)
| Error (e : Err).
Arguments Ok {A} a.
Arguments Error {A} e.

(** [externalPort] is a number by default (3806) while [MYSQL_DEFAULT_PORT]
    is the string ['3306']; the [port] field carries either. *)
Inductive PortVal : Type :=
| PortNumber (n : Z)
| PortString (s : string).

(** The template literal [`${externalPort}`]. *)
Definition port_text (p : PortVal) : string :=
  match p with
  | PortNumber n => NilZero.string_of_int (Z.to_int n)
  | PortString s => s
  end.

Record ConnectionParameters : Type := {
  host : string;
  port : PortVal;
  user : string;
  password : string;
  database : string;
}.

(** One entry of a network listing: [n.Name] / [n.Id] with dockerode,
    [network.data.Name] / [network.data.Id] with node-docker-api. *)
Record NetworkInfo : Type := {
  Name : string;
  Id : string;
}.

Record NetworkOptions : Type := {
  net_Name : string;
  CheckDuplicate : bool;
  Attachable : bool;
}.

(** Argument of [network.connect]; [EndpointConfig.Aliases] is only passed by
    the node-docker-api variant. *)
Record ConnectOptions : Type := {
  connect_Container : string;
  connect_Aliases : option (list string);
}.

Record DisconnectOptions : Type := {
  disconnect_Container : string;
  disconnect_Force : bool;
}.

Record PortBinding : Type := {
  binding_key : string;
  HostIP : string;
  HostPort : string;
}.

Record ContainerOptions : Type := {
  Image : string;
  name : string;
  PortBindings : list PortBinding;
  Tmpfs : list (string * string);
  EndpointsConfig : list (string * list string);   (* network name, Aliases *)
}.

(** What [docker.container.get] of node-docker-api hands back, as far as the
    module looks at it: [container.id] and [container.data.Id]; [None] is
    [undefined]. *)
Record ContainerData : Type := { data_Id : option string }.
Record ContainerHandle : Type := {
  handle_id : option string;
  handle_data : option ContainerData;
}.

Inductive Level : Type := Debug | Info | Warn.

(** ** Calls to the collaborators

    The index is the type of the value a call resolves with. *)
Inductive Call : Type -> Type :=
| ListNetworks : Call (list NetworkInfo)
| CreateNetwork (o : NetworkOptions) : Call string       (* resolves with the new id *)
| NetworkConnect (net : string) (o : ConnectOptions) : Call unit
| NetworkDisconnect (net : string) (o : DisconnectOptions) : Call unit
| NetworkRemove (net : string) (force : bool) : Call unit
| ContainerGet (c : string) : Call (option ContainerHandle)
| ContainerInspect (c : string) : Call unit
| CreateContainer (o : ContainerOptions) : Call string   (* resolves with the new id *)
| ContainerStart (c : string) : Call unit
| ContainerStop (c : string) : Call unit
| ContainerRemove (c : string) (force : bool) : Call unit
| ContainerRestart (c : string) : Call unit
| DbConnect (p : ConnectionParameters) : Call unit
| DbQuery (sql : string) : Call nat                      (* resolves with [res.length] *)
| DbDestroy : Call unit
| Sleep (ms : Z) : Call unit
| Log (l : Level) (msg : string) (payload : option Err) : Call unit.

Inductive Event : Type :=
| Ev {X : Type} (c : Call X).

(** ** Asynchronous programs *)

(** [Throw] is a rejection (an exception inside an [async] function or a call to
    [reject]); [Crash] is an exception thrown inside a driver callback, outside
    any promise: no [try]/[catch] of the module sees it and the pending promise
    never settles. *)
Inductive Prog (A : Type) : Type :=
| Ret (a : A)
| Throw (e : Err)
| Crash (e : Err)
| Vis {X : Type} (c : Call X) (k : Result X -> Prog A).
Arguments Ret {A} a.
Arguments Throw {A} e.
Arguments Crash {A} e.
Arguments Vis {A X} c k.

Fixpoint bind {A B : Type} (p : Prog A) (f : A -> Prog B) : Prog B :=
  match p with
  | Ret a => f a
  | Throw e => Throw e
  | Crash e => Crash e
  | Vis c k => Vis c (fun r => bind (k r) f)
  end.

(** [try { p } catch (err) { h err }] *)
Fixpoint try_catch {A : Type} (p : Prog A) (h : Err -> Prog A) : Prog A :=
  match p with
  | Ret a => Ret a
  | Throw e => h e
  | Crash e => Crash e
  | Vis c k => Vis c (fun r => try_catch (k r) h)
  end.

(** [await c]: a failed call is thrown at the [await]. *)
Definition await {X : Type} (c : Call X) : Prog X :=
  Vis c (fun r => match r with Ok x => Ret x | Error e => Throw e end).

(** Calls whose answer the module cannot observe: [log.*] and [sleep]. *)
Definition emit (c : Call unit) : Prog unit :=
  Vis c (fun _ => Ret tt).

Declare Scope prog_scope.
Delimit Scope prog_scope with prog.
Notation "x <- p ;; q" := (bind p (fun x => q))
  (at level 61, p at next level, right associativity) : prog_scope.
Notation "p ;; q" := (bind p (fun _ => q))
  (at level 61, right associativity) : prog_scope.
Local Open Scope prog_scope.

(** A JavaScript value that is called: [None] is [undefined]. *)
Definition call_fn {A : Type} (what : string) (f : option (Prog A)) : Prog A :=
  match f with
  | Some body => body
  | None => Throw (TypeError (what ++ " is not a function"))
  end.

(** ** Running a program against an environment *)

(** The environment answers a call knowing every call made before it. *)
Definition Env : Type := list Event -> forall X : Type, Call X -> Result X.

Inductive Outcome (A : Type) : Type :=
| Resolved (a : A)
| Rejected (e : Err)
| Crashed (e : Err).
Arguments Resolved {A} a.
Arguments Rejected {A} e.
Arguments Crashed {A} e.

(** [run env h p]: outcome of [p] started after the calls [h], and the calls
    [p] made, oldest first. *)
Fixpoint run {A : Type} (env : Env) (h : list Event) (p : Prog A)
  : Outcome A * list Event :=
  match p with
  | Ret a => (Resolved a, [])
  | Throw e => (Rejected e, [])
  | Crash e => (Crashed e, [])
  | Vis c k =>
      let '(o, t) := run env (h ++ [Ev c]) (k (env h _ c)) in
      (o, Ev c :: t)
  end.

Definition outcome {A : Type} (env : Env) (h : list Event) (p : Prog A) : Outcome A :=
  fst (run env h p).

Definition trace {A : Type} (env : Env) (h : list Event) (p : Prog A) : list Event :=
  snd (run env h p).

(** ** JavaScript truthiness, as far as the module relies on it *)

Definition truthy_string (s : string) : bool := negb (String.eqb s "").

Definition truthy (v : option string) : bool :=
  match v with
  | Some s => truthy_string s
  | None => false
  end.

(** [a || b] on values that are strings, [null] or [undefined]. *)
Definition js_or (a b : option string) : option string :=
  if truthy a then a else b.

(** ** Module-level constants and helpers shared by both variants *)

Definition LOCALHOST : string := "127.0.0.1".
Definition MYSQL_DEFAULT_PORT : string := "3306".
Definition SENTINEL_QUERY : string :=
  "SELECT id AS id FROM integration_test_flag LIMIT 1".

(** [this] inside the facade.  [NodeItDocker] and every method of the object
    it returns are arrow functions, which have no [this] of their own: [this]
    is the one of the module scope, the CommonJS [exports] object.  The module
    puts a single property on it ([exports.NodeItDocker = NodeItDocker]). *)
Definition exports : list string := ["NodeItDocker"].

(** The value of [this.<prop>], seen as something to call.  Calling
    [NodeItDocker] without an argument fails while destructuring. *)
Definition this_member {A : Type} (prop : string) : option (Prog A) :=
  if existsb (String.eqb prop) exports
  then Some (Throw (TypeError "Cannot destructure property of undefined"))
  else None.

(** ** Configuration *)

(** The object passed to [NodeItDocker]; [None] is an absent property, for
    which the destructuring default applies. *)
Record Options : Type := {
  opt_itImageName : option string;
  opt_itContainerName : option string;
  opt_externalPort : option PortVal;
  opt_containerNetworkName : option string;
  opt_dataDir : option string;
  opt_currentContainerId : option string;
  opt_verifyDbConnection : option bool;
  opt_dbUsername : option string;
  opt_dbPassword : option string;
  opt_dbName : option string;
}.

(** The two environment variables read at construction. *)
Record ProcessEnv : Type := {
  IT_CONTAINER : option string;
  IT_IMAGE_NAME : option string;
}.

(** The bindings the facade closes over. *)
Record Config : Type := {
  itImageName : string;
  itContainerName : string;
  externalPort : PortVal;
  containerNetworkName : string;
  dataDir : string;
  currentContainerId : option string;
  verifyDbConnection : bool;
  dbUsername : string;
  dbPassword : string;
  dbName : string;
}.

Definition default {A : Type} (d : A) (v : option A) : A :=
  match v with
  | Some a => a
  | None => d
  end.

(** Destructuring with defaults, then the two overrides
    [process.env.IT_CONTAINER || currentContainerId || null] and
    [process.env.IT_IMAGE_NAME || itImageName]. *)
Definition configure (penv : ProcessEnv) (o : Options) : Config :=
  {| itImageName :=
       default (default "989173062527.dkr.ecr.eu-west-1.amazonaws.com/it-mysql-v2"
                        (opt_itImageName o))
               (js_or (IT_IMAGE_NAME penv) None);
     itContainerName := default "node-it-container-qwerty12345" (opt_itContainerName o);
     externalPort := default (PortNumber 3806) (opt_externalPort o);
     containerNetworkName := default "node-it-test-net" (opt_containerNetworkName o);
     dataDir := default "/var/lib/mysql" (opt_dataDir o);
     currentContainerId :=
       js_or (js_or (IT_CONTAINER penv) (opt_currentContainerId o)) None;
     verifyDbConnection := default true (opt_verifyDbConnection o);
     dbUsername := default "ituser" (opt_dbUsername o);
     dbPassword := default "ituser" (opt_dbPassword o);
     dbName := default "nursebuddy" (opt_dbName o) |}.

(** The object literal that [connect], [start], [restart] and
    [getDbConnectionParameters] all build. *)
Definition connection_parameters
  (externalPort : PortVal) (currentContainerId : option string)
  (itContainerName dbUsername dbPassword dbName : string) : ConnectionParameters :=
  {| host := if truthy currentContainerId then itContainerName else LOCALHOST;
     port := if truthy currentContainerId then PortString MYSQL_DEFAULT_PORT
             else externalPort;
     user := dbUsername;
     password := dbPassword;
     database := dbName |}.

(** Setting a key of an object literal: a repeated key keeps its place and
    takes the later value. *)
Fixpoint obj_set {V : Type} (k : string) (v : V) (o : list (string * V))
  : list (string * V) :=
  match o with
  | [] => [(k, v)]
  | (k', v') :: o' =>
      if String.eqb k k' then (k, v) :: o' else (k', v') :: obj_set k v o'
  end.

(** The argument of [createContainer] / [container.create]. *)
Definition container_options (cfg : Config) : ContainerOptions :=
  {| Image := itImageName cfg;
     name := itContainerName cfg;
     PortBindings :=
       [ {| binding_key := MYSQL_DEFAULT_PORT ++ "/tcp";
            HostIP := "0.0.0.0";
            HostPort := port_text (externalPort cfg) |} ];
     Tmpfs :=
       obj_set "/tmp" "rw,noexec,nosuid,size=50m"
         (obj_set (dataDir cfg) "rw,noexec,nosuid,size=600m" []);
     EndpointsConfig := [ (containerNetworkName cfg, [itContainerName cfg]) ] |}.

(** The facade returned by [NodeItDocker]. *)
Record Facade : Type := {
  stop : Prog unit;
  start : Prog (option ConnectionParameters);      (* [None] is [null] *)
  restart : Prog (option ConnectionParameters);
  getDbConnectionParameters : Prog ConnectionParameters;
}.

(** ** The connectivity verifier

    [verifyDatabaseConnection] is the same text in both variants (they differ
    in how the start time is read, which only feeds a log line); it is stated
    once, over the variant's [connect]. *)

(** [Math.round(waitPeriod / 2)]: [waitPeriod] is an integer, halves round up. *)
Definition round_half (waitPeriod : Z) : Z := (waitPeriod + 1) / 2.

(** How the [for] loop is left. *)
Inductive LoopExit : Type :=
| Verified                               (* [return true] inside the loop *)
| Exhausted (lastError : option Err).    (* [i] reached 10 *)

(** What one iteration's [try] block leaves behind. *)
Inductive TryExit : Type :=
| Returned
| FellThrough (lastError : option Err).

Section Verifier.

Variable connect :
  PortVal -> option string -> string -> string -> string -> string -> Prog bool.

Variables (externalPort : PortVal) (currentContainerId : option string)
          (itContainerName dbUsername dbPassword dbName : string).

(** The loop with [n] iterations left. *)
Fixpoint attempts (n : nat) (waitPeriod : Z) (lastError : option Err)
  : Prog LoopExit :=
  match n with
  | O => Ret (Exhausted lastError)
  | S n' =>
      r <- try_catch
             (ok <- connect externalPort currentContainerId itContainerName
                      dbUsername dbPassword dbName ;;
              if ok : bool
              then emit (Log Info "DB Connection verified in : <elapsed> ms." None) ;;
                   Ret Returned
              else Ret (FellThrough lastError))
             (fun err => Ret (FellThrough (Some err))) ;;
      match r with
      | Returned => Ret Verified
      | FellThrough lastError' =>
          emit (Sleep waitPeriod) ;;
          attempts n' (waitPeriod + round_half waitPeriod) lastError'
      end
  end.

(** The result is [true], [false] or, when verification is switched off,
    [undefined] ([None]). *)
Definition verifyDatabaseConnection_with
  (verifyDbConnection : bool) (stopFn : option (Prog unit)) : Prog (option bool) :=
  if verifyDbConnection then
    r <- attempts 10 500 None ;;
    match r with
    | Verified => Ret (Some true)
    | Exhausted lastError =>
        emit (Log Warn "DB connection failed:" lastError) ;;
        call_fn "stopFn" stopFn ;;
        Ret (Some false)
    end
  else Ret None.

End Verifier.

(** Truthiness of what [verifyDatabaseConnection] resolves with. *)
Definition verified (v : option bool) : bool :=
  match v with
  | Some b => b
  | None => false
  end.

(** ** Variant 1: [src/node-it-docker.js] (dockerode)

    [docker.getContainer(id)] and [docker.getNetwork(id)] build a handle for
    the given id without contacting the engine; a handle is modelled by that
    id. *)
Module Dockerode.

Definition connectRunningContainerToNetwork
  (currentContainerId : option string) (network : string) : Prog unit :=
  match currentContainerId with
  | Some id =>
      if truthy_string id then
        emit (Log Info ("Connecting the current container ('" ++ id
                        ++ "') to the IT DB network.") None) ;;
        await (NetworkConnect network
                 {| connect_Container := id; connect_Aliases := None |})
      else Ret tt
  | None => Ret tt
  end.

Definition disconnectRunningContainerFromNetwork
  (currentContainerId : option string) (network : string) : Prog unit :=
  match currentContainerId with
  | Some id =>
      if truthy_string id then
        emit (Log Info ("Disconnecting the current container ('" ++ id
                        ++ "') from the IT DB network.") None) ;;
        await (NetworkDisconnect network
                 {| disconnect_Container := id; disconnect_Force := true |})
      else Ret tt
  | None => Ret tt
  end.

Definition getOrCreateNetwork (containerNetworkName : string) : Prog string :=
  network <- try_catch
               (existingNetworks <- await ListNetworks ;;
                match find (fun n => String.eqb (Name n) containerNetworkName)
                           existingNetworks with
                | Some found => Ret (Some (Id found))
                | None => Ret None
                end)
               (fun err =>
                  emit (Log Debug "Failed to list docker networks." (Some err)) ;;
                  Ret None) ;;
  match network with
  | Some handle => Ret handle
  | None =>
      emit (Log Info "No existing network, creating it." None) ;;
      created <- await (CreateNetwork {| net_Name := containerNetworkName;
                                         CheckDuplicate := true;
                                         Attachable := true |}) ;;
      emit (Log Info ("Network '" ++ containerNetworkName ++ "' created") None) ;;
      Ret created
  end.

(** The query callback destroys the connection first, outside any [try]. *)
Definition connect (externalPort : PortVal) (currentContainerId : option string)
  (itContainerName dbUsername dbPassword dbName : string) : Prog bool :=
  Vis (DbConnect (connection_parameters externalPort currentContainerId
                    itContainerName dbUsername dbPassword dbName))
    (fun connected =>
       match connected with
       | Error err => Throw err
       | Ok _ =>
           Vis (DbQuery SENTINEL_QUERY)
             (fun res =>
                Vis DbDestroy
                  (fun destroyed =>
                     match destroyed with
                     | Error ex => Crash ex
                     | Ok _ =>
                         match res with
                         | Error err => Throw err
                         | Ok length =>
                             if negb (Nat.eqb length 1) then Throw InvalidLength
                             else Ret true
                         end
                     end))
       end).

Definition verifyDatabaseConnection (verifyDbConnection : bool)
  (externalPort : PortVal) (currentContainerId : option string)
  (itContainerName dbUsername dbPassword dbName : string)
  (stopFn : option (Prog unit)) : Prog (option bool) :=
  verifyDatabaseConnection_with connect externalPort currentContainerId
    itContainerName dbUsername dbPassword dbName verifyDbConnection stopFn.

(** The call made by [start] and [restart]. *)
Definition verify (cfg : Config) (stopFn : option (Prog unit)) : Prog (option bool) :=
  verifyDatabaseConnection (verifyDbConnection cfg) (externalPort cfg)
    (currentContainerId cfg) (itContainerName cfg) (dbUsername cfg)
    (dbPassword cfg) (dbName cfg) stopFn.

Definition parameters (cfg : Config) : ConnectionParameters :=
  connection_parameters (externalPort cfg) (currentContainerId cfg)
    (itContainerName cfg) (dbUsername cfg) (dbPassword cfg) (dbName cfg).

Definition stop (cfg : Config) : Prog unit :=
  try_catch
    (let container := itContainerName cfg in
     await (ContainerStop container) ;;
     await (ContainerRemove container true) ;;
     let network := containerNetworkName cfg in
     (if truthy (currentContainerId cfg)
      then disconnectRunningContainerFromNetwork (currentContainerId cfg) network
      else Ret tt) ;;
     await (NetworkRemove network true) ;;
     emit (Log Info "Container stopped." None))
    (fun err => emit (Log Warn "Failed to stop container or network:" (Some err))).

Definition start (cfg : Config) : Prog (option ConnectionParameters) :=
  network <- getOrCreateNetwork (containerNetworkName cfg) ;;
  container <- try_catch
                 (let container := itContainerName cfg in
                  await (ContainerInspect container) ;;
                  Ret container)
                 (fun _ =>
                    emit (Log Info "Creating container" None) ;;
                    created <- await (CreateContainer (container_options cfg)) ;;
                    emit (Log Info ("Container '" ++ created ++ "' created.") None) ;;
                    Ret created) ;;
  await (ContainerStart container) ;;
  connectRunningContainerToNetwork (currentContainerId cfg) network ;;
  ok <- verify cfg (this_member "stop") ;;
  if verified ok then Ret (Some (parameters cfg)) else Ret None.

Definition restart (cfg : Config) : Prog (option ConnectionParameters) :=
  try_catch
    (let container := itContainerName cfg in
     await (ContainerRestart container) ;;
     ok <- verify cfg (this_member "stop") ;;
     if verified ok then Ret (Some (parameters cfg)) else Ret None)
    (fun err =>
       emit (Log Warn "Restart failed, starting new container." (Some err)) ;;
       call_fn "this.start" (this_member "start")).

Definition getDbConnectionParameters (cfg : Config) : Prog ConnectionParameters :=
  Ret (parameters cfg).

Definition NodeItDocker (penv : ProcessEnv) (o : Options) : Facade :=
  let cfg := configure penv o in
  Build_Facade (stop cfg) (start cfg) (restart cfg) (getDbConnectionParameters cfg).

End Dockerode.

(** ** Variant 2: [src/unnamed/part_000] (node-docker-api)

    [docker.container.get] is a call whose answer the module inspects
    ([container], [container.id], [container.data.Id]); [docker.network.get] is
    used without inspection and is modelled by the name it is given.
    [container.stop()] resolves with the container it was called on, and
    [delete] is this client's name for the remove request.  The creation
    options spell the network's name key [name] where dockerode's spell it
    [Name]; [net_Name] stands for both. *)
Module NodeDockerApi.

Definition connectRunningContainerToNetwork
  (currentContainerId : option string) (network : option string) : Prog unit :=
  match currentContainerId with
  | Some id =>
      if truthy_string id then
        emit (Log Info ("Connecting the current container ('" ++ id
                        ++ "') to the IT DB network.") None) ;;
        match network with
        | Some net =>
            await (NetworkConnect net
                     {| connect_Container := id; connect_Aliases := Some [id] |})
        | None =>
            Throw (TypeError "Cannot read properties of undefined (reading 'connect')")
        end
      else Ret tt
  | None => Ret tt
  end.

Definition disconnectRunningContainerFromNetwork
  (currentContainerId : option string) (network : string) : Prog unit :=
  match currentContainerId with
  | Some id =>
      if truthy_string id then
        emit (Log Info ("Connecting the current container ('" ++ id
                        ++ "') to the IT DB network.") None) ;;
        await (NetworkDisconnect network
                 {| disconnect_Container := id; disconnect_Force := true |})
      else Ret tt
  | None => Ret tt
  end.

Definition getOrCreateNetwork (containerNetworkName : string) : Prog string :=
  network <- try_catch
               (existingNetworks <- await ListNetworks ;;
                let existingNetwork :=
                  filter (fun network => String.eqb (Name network) containerNetworkName)
                         existingNetworks in
                Ret (hd_error existingNetwork))
               (fun err =>
                  emit (Log Debug "Failed to list docker networks." None) ;;
                  Ret None) ;;
  let create :=
    emit (Log Info "No existing network, creating it." None) ;;
    created <- await (CreateNetwork {| net_Name := containerNetworkName;
                                       CheckDuplicate := true;
                                       Attachable := true |}) ;;
    emit (Log Info ("Network '" ++ containerNetworkName ++ "' created") None) ;;
    Ret created in
  match network with
  | Some n => if truthy_string (Id n) then Ret (Id n) else create
  | None => create
  end.

(** [try { connection.destroy(); } catch (ex) { }] *)
Definition destroy_quietly : Prog unit :=
  try_catch (await DbDestroy) (fun _ => Ret tt).

Definition connect (externalPort : PortVal) (currentContainerId : option string)
  (itContainerName dbUsername dbPassword dbName : string) : Prog bool :=
  Vis (DbConnect (connection_parameters externalPort currentContainerId
                    itContainerName dbUsername dbPassword dbName))
    (fun connected =>
       match connected with
       | Error err =>
           emit (Log Debug "Failed to connect to database" (Some err)) ;;
           Throw err
       | Ok _ =>
           Vis (DbQuery SENTINEL_QUERY)
             (fun res =>
                match res with
                | Error err =>
                    emit (Log Debug "Failed to execute query" (Some err)) ;;
                    destroy_quietly ;;
                    Throw err
                | Ok length =>
                    if negb (Nat.eqb length 1) then
                      emit (Log Debug ("Invalid result length: "
                                ++ NilZero.string_of_uint (Nat.to_uint length)
                                ++ ". Expected 1.") None) ;;
                      destroy_quietly ;;
                      Throw InvalidLength
                    else
                      destroy_quietly ;;
                      emit (Log Debug "Connection success" None) ;;
                      Ret true
                end)
       end).

Definition verifyDatabaseConnection (verifyDbConnection : bool)
  (externalPort : PortVal) (currentContainerId : option string)
  (itContainerName dbUsername dbPassword dbName : string)
  (stopFn : option (Prog unit)) : Prog (option bool) :=
  verifyDatabaseConnection_with connect externalPort currentContainerId
    itContainerName dbUsername dbPassword dbName verifyDbConnection stopFn.

(** The call made by [start] and [restart]. *)
Definition verify (cfg : Config) (stopFn : option (Prog unit)) : Prog (option bool) :=
  verifyDatabaseConnection (verifyDbConnection cfg) (externalPort cfg)
    (currentContainerId cfg) (itContainerName cfg) (dbUsername cfg)
    (dbPassword cfg) (dbName cfg) stopFn.

Definition parameters (cfg : Config) : ConnectionParameters :=
  connection_parameters (externalPort cfg) (currentContainerId cfg)
    (itContainerName cfg) (dbUsername cfg) (dbPassword cfg) (dbName cfg).

(** [container && container.id], giving the id when truthy. *)
Definition usable_id (container : option ContainerHandle) : option string :=
  match container with
  | Some c => if truthy (handle_id c) then handle_id c else None
  | None => None
  end.

(** [container && container.id && container.data && container.data.Id] *)
Definition existing_id (container : option ContainerHandle) : option string :=
  match container with
  | Some c =>
      match handle_data c with
      | Some d => if truthy (handle_id c) && truthy (data_Id d)
                  then handle_id c else None
      | None => None
      end
  | None => None
  end.

Definition stop (cfg : Config) : Prog unit :=
  container <- await (ContainerGet (itContainerName cfg)) ;;
  match usable_id container with
  | None => Ret tt
  | Some id =>
      emit (Log Info "Stopping container." None) ;;
      await (ContainerStop id) ;;
      await (ContainerRemove id true) ;;
      let network := containerNetworkName cfg in
      (if truthy (currentContainerId cfg) then
         emit (Log Info
                 "Disconnecting IT container from the Docker DB container network."
                 None) ;;
         disconnectRunningContainerFromNetwork (currentContainerId cfg) network
       else Ret tt) ;;
      await (NetworkRemove network true) ;;
      emit (Log Info "Container stopped." None)
  end.

Definition start (cfg : Config) : Prog (option ConnectionParameters) :=
  got <- await (ContainerGet (itContainerName cfg)) ;;
  cn <- match existing_id got with
        | Some id => Ret (id, None)
        | None =>
            network <- getOrCreateNetwork (containerNetworkName cfg) ;;
            emit (Log Info "Creating container" None) ;;
            created <- await (CreateContainer (container_options cfg)) ;;
            emit (Log Info ("Container '" ++ created ++ "' created.") None) ;;
            Ret (created, Some network)
        end ;;
  let '(container, network) := cn in
  await (ContainerStart container) ;;
  connectRunningContainerToNetwork (currentContainerId cfg) network ;;
  ok <- verify cfg (this_member "stop") ;;
  if verified ok then Ret (Some (parameters cfg)) else Ret None.

Definition restart (cfg : Config) : Prog (option ConnectionParameters) :=
  got <- await (ContainerGet (itContainerName cfg)) ;;
  match usable_id got with
  | Some id =>
      await (ContainerRestart id) ;;
      ok <- verify cfg (this_member "stop") ;;
      if verified ok then Ret (Some (parameters cfg)) else Ret None
  | None => call_fn "this.start" (this_member "start")
  end.

Definition getDbConnectionParameters (cfg : Config) : Prog ConnectionParameters :=
  Ret (parameters cfg).

Definition NodeItDocker (penv : ProcessEnv) (o : Options) : Facade :=
  let cfg := configure penv o in
  Build_Facade (stop cfg) (start cfg) (restart cfg) (getDbConnectionParameters cfg).

End NodeDockerApi.

(** ** Observations on the calls a run made *)

Definition is_attempt (e : Event) : bool :=
  match e with
  | Ev c => match c with DbConnect _ => true | _ => false end
  end.

Definition is_destroy (e : Event) : bool :=
  match e with
  | Ev c => match c with DbDestroy => true | _ => false end
  end.

Definition is_create_network (e : Event) : bool :=
  match e with
  | Ev c => match c with CreateNetwork _ => true | _ => false end
  end.

(** Calls that belong to the verifier: the driver, the timer and the log. *)
Definition is_verifier_call (e : Event) : bool :=
  match e with
  | Ev c =>
      match c with
      | DbConnect _ | DbQuery _ | DbDestroy | Sleep _ | Log _ _ _ => true
      | _ => false
      end
  end.

(** Requests that tear something down in the engine. *)
Definition is_teardown (e : Event) : bool :=
  match e with
  | Ev c =>
      match c with
      | ContainerStop _ | ContainerRemove _ _
      | NetworkDisconnect _ _ | NetworkRemove _ _ => true
      | _ => false
      end
  end.

(** Requests on the network made by the cleanup. *)
Definition is_network_cleanup (e : Event) : bool :=
  match e with
  | Ev c =>
      match c with
      | NetworkDisconnect _ _ | NetworkRemove _ _ => true
      | _ => false
      end
  end.

(** Requests sent to the container engine (handle construction, the driver,
    the timer and the log are not). *)
Definition is_engine_request (e : Event) : bool :=
  match e with
  | Ev c =>
      match c with
      | ListNetworks | CreateNetwork _ | NetworkConnect _ _
      | NetworkDisconnect _ _ | NetworkRemove _ _ | ContainerInspect _
      | CreateContainer _ | ContainerStart _ | ContainerStop _
      | ContainerRemove _ _ | ContainerRestart _ => true
      | _ => false
      end
  end.

Definition is_inspect (e : Event) : bool :=
  match e with
  | Ev c => match c with ContainerInspect _ => true | _ => false end
  end.

Definition count (f : Event -> bool) (t : list Event) : nat :=
  List.length (filter f t).

Definition attempts_in (t : list Event) : nat := count is_attempt t.

(** The verifier's attempts and waits, in order. *)
Inductive Tick : Type :=
| Attempt
| Wait (ms : Z).

Fixpoint timeline (t : list Event) : list Tick :=
  match t with
  | [] => []
  | Ev c :: t' =>
      match c with
      | DbConnect _ => Attempt :: timeline t'
      | Sleep ms => Wait ms :: timeline t'
      | _ => timeline t'
      end
  end.

Fixpoint waits (l : list Tick) : list Z :=
  match l with
  | [] => []
  | Attempt :: l' => waits l'
  | Wait ms :: l' => ms :: waits l'
  end.

(** The first [n] wait periods, starting from [w]. *)
Fixpoint backoff (n : nat) (w : Z) : list Z :=
  match n with
  | O => []
  | S n' => w :: backoff n' (w + round_half w)
  end.

(** [n] failed attempts, each followed by its wait. *)
Fixpoint failed_rounds (n : nat) (w : Z) : list Tick :=
  match n with
  | O => []
  | S n' => Attempt :: Wait w :: failed_rounds n' (w + round_half w)
  end.

(** The alias option of an attach request, which only one variant passes. *)
Definition without_alias (e : Event) : Event :=
  match e with
  | Ev c =>
      match c with
      | NetworkConnect net o =>
          Ev (NetworkConnect net {| connect_Container := connect_Container o;
                                    connect_Aliases := None |})
      | _ => e
      end
  end.

(** Every call a program can make satisfies [P]. *)
Inductive Only {A : Type} (P : Event -> Prop) : Prog A -> Prop :=
| Only_Ret (a : A) : Only P (Ret a)
| Only_Throw (e : Err) : Only P (Throw e)
| Only_Crash (e : Err) : Only P (Crash e)
| Only_Vis {X : Type} (c : Call X) (k : Result X -> Prog A) :
    P (Ev c) -> (forall r, Only P (k r)) -> Only P (Vis c k).

(** No path of the program ends in an exception escaping from a driver
    callback: its promise always settles. *)
Inductive Settles {A : Type} : Prog A -> Prop :=
| Settles_Ret (a : A) : Settles (Ret a)
| Settles_Throw (e : Err) : Settles (Throw e)
| Settles_Vis {X : Type} (c : Call X) (k : Result X -> Prog A) :
    (forall r, Settles (k r)) -> Settles (Vis c k).

(** ** Scripted environments

    A test double: one answer per kind of engine request, and the driver's
    answers given per connection attempt. *)
Record DbAnswers : Type := {
  connect_answer : Result unit;
  query_answer : Result nat;
  destroy_answer : Result unit;
}.

Record World : Type := {
  listNetworks_answer : Result (list NetworkInfo);
  createNetwork_answer : Result string;
  networkConnect_answer : Result unit;
  networkDisconnect_answer : Result unit;
  networkRemove_answer : Result unit;
  containerGet_answer : Result (option ContainerHandle);
  containerInspect_answer : Result unit;
  createContainer_answer : Result string;
  containerStart_answer : Result unit;
  containerStop_answer : Result unit;
  containerRemove_answer : Result unit;
  containerRestart_answer : Result unit;
  db : nat -> DbAnswers;       (* attempt number, from 0 *)
}.

Definition scripted (w : World) : Env :=
  fun h X c =>
    match c in Call X return Result X with
    | ListNetworks => listNetworks_answer w
    | CreateNetwork _ => createNetwork_answer w
    | NetworkConnect _ _ => networkConnect_answer w
    | NetworkDisconnect _ _ => networkDisconnect_answer w
    | NetworkRemove _ _ => networkRemove_answer w
    | ContainerGet _ => containerGet_answer w
    | ContainerInspect _ => containerInspect_answer w
    | CreateContainer _ => createContainer_answer w
    | ContainerStart _ => containerStart_answer w
    | ContainerStop _ => containerStop_answer w
    | ContainerRemove _ _ => containerRemove_answer w
    | ContainerRestart _ => containerRestart_answer w
    | DbConnect _ => connect_answer (db w (attempts_in h))
    | DbQuery _ => query_answer (db w (pred (attempts_in h)))
    | DbDestroy => destroy_answer (db w (pred (attempts_in h)))
    | Sleep _ => Ok tt
    | Log _ _ _ => Ok tt
    end.

Definition not_found : Err := External "404 no such container".

Definition db_down : nat -> DbAnswers :=
  fun _ => {| connect_answer := Error (External "ECONNREFUSED");
              query_answer := Ok 0;
              destroy_answer := Ok tt |}.

Definition db_ready : nat -> DbAnswers :=
  fun _ => {| connect_answer := Ok tt;
              query_answer := Ok 1;
              destroy_answer := Ok tt |}.

(** The database accepts connections only from attempt [k] on. *)
Definition db_ready_from (k : nat) : nat -> DbAnswers :=
  fun i => if Nat.ltb i k then db_down i else db_ready i.

(** An engine with neither the container nor the network: lookups fail,
    creations succeed. *)
Definition fresh_engine (d : nat -> DbAnswers) : World :=
  {| listNetworks_answer := Ok [];
     createNetwork_answer := Ok "net-1";
     networkConnect_answer := Ok tt;
     networkDisconnect_answer := Error not_found;
     networkRemove_answer := Error not_found;
     containerGet_answer :=
       Ok (Some {| handle_id := Some "node-it-container-qwerty12345";
                   handle_data := Some {| data_Id := None |} |});
     containerInspect_answer := Error not_found;
     createContainer_answer := Ok "c0ffee";
     containerStart_answer := Ok tt;
     containerStop_answer := Error not_found;
     containerRemove_answer := Error not_found;
     containerRestart_answer := Error not_found;
     db := d |}.

(** An engine in which the container and the network already exist. *)
Definition provisioned_engine (d : nat -> DbAnswers) : World :=
  {| listNetworks_answer := Ok [ {| Name := "bridge"; Id := "net-0" |};
                                 {| Name := "node-it-test-net"; Id := "net-1" |} ];
     createNetwork_answer := Error (External "409 network exists");
     networkConnect_answer := Ok tt;
     networkDisconnect_answer := Ok tt;
     networkRemove_answer := Ok tt;
     containerGet_answer :=
       Ok (Some {| handle_id := Some "node-it-container-qwerty12345";
                   handle_data := Some {| data_Id := Some "c0ffee" |} |});
     containerInspect_answer := Ok tt;
     createContainer_answer := Error (External "409 name in use");
     containerStart_answer := Ok tt;
     containerStop_answer := Ok tt;
     containerRemove_answer := Ok tt;
     containerRestart_answer := Ok tt;
     db := d |}.

Definition no_options : Options :=
  {| opt_itImageName := None; opt_itContainerName := None;
     opt_externalPort := None; opt_containerNetworkName := None;
     opt_dataDir := None; opt_currentContainerId := None;
     opt_verifyDbConnection := None; opt_dbUsername := None;
     opt_dbPassword := None; opt_dbName := None |}.

Definition no_env : ProcessEnv := {| IT_CONTAINER := None; IT_IMAGE_NAME := None |}.

(** [NodeItDocker({})] *)
Definition default_config : Config := configure no_env no_options.

(** [NodeItDocker({ verifyDbConnection: false })] *)
Definition unverified_config : Config :=
  configure no_env
    {| opt_itImageName := None; opt_itContainerName := None;
       opt_externalPort := None; opt_containerNetworkName := None;
       opt_dataDir := None; opt_currentContainerId := None;
       opt_verifyDbConnection := Some false; opt_dbUsername := None;
       opt_dbPassword := None; opt_dbName := None |}.

(** [NodeItDocker({})] with [IT_CONTAINER=runner] in the process environment. *)
Definition runner_config : Config :=
  configure {| IT_CONTAINER := Some "runner"; IT_IMAGE_NAME := None |} no_options.

(** ** What the driver answers during one attempt started after [h] *)

Definition opened (env : Env) (h : list Event) (p : ConnectionParameters) : bool :=
  match env h _ (DbConnect p) with
  | Ok _ => true
  | Error _ => false
  end.

Definition rows (env : Env) (h : list Event) (p : ConnectionParameters) : option nat :=
  match env (h ++ [Ev (DbConnect p)]) _ (DbQuery SENTINEL_QUERY) with
  | Ok n => Some n
  | Error _ => None
  end.

(** Whether [connection.destroy()] returns normally, asked right after the
    query as [src/node-it-docker.js] does. *)
Definition destroy_returns (env : Env) (h : list Event) (p : ConnectionParameters) : bool :=
  match env (h ++ [Ev (DbConnect p); Ev (DbQuery SENTINEL_QUERY)]) _ DbDestroy with
  | Ok _ => true
  | Error _ => false
  end.

(** The network called [name] in the listing the engine answers after [h],
    when it answers one. *)
Definition listed_network (env : Env) (h : list Event) (name : string)
  : option NetworkInfo :=
  match env h _ ListNetworks with
  | Ok existingNetworks => find (fun n => String.eqb (Name n) name) existingNetworks
  | Error _ => None
  end.

(** The calls [getOrCreateNetwork] has made when it reaches the creation. *)
Definition lookup_calls (env : Env) (h : list Event) (debug_payload : bool)
  : list Event :=
  match env h _ ListNetworks with
  | Ok _ => [Ev ListNetworks; Ev (Log Info "No existing network, creating it." None)]
  | Error e =>
      [Ev ListNetworks;
       Ev (Log Debug "Failed to list docker networks."
             (if debug_payload then Some e else None));
       Ev (Log Info "No existing network, creating it." None)]
  end.

(** What a scripted attempt comes to when [destroy] returns normally. *)
Definition attempt_result (a : DbAnswers) : Outcome bool :=
  match connect_answer a with
  | Error e => Rejected e
  | Ok _ =>
      match query_answer a with
      | Error e => Rejected e
      | Ok n => if Nat.eqb n 1 then Resolved true else Rejected InvalidLength
      end
  end.

(** The engine requests of a trace. *)
Definition engine_requests (t : list Event) : list Event :=
  filter is_engine_request t.

(** ** Further observations *)

(** Requests on the database container made while provisioning it. *)
Definition is_container_request (e : Event) : bool :=
  match e with
  | Ev c =>
      match c with
      | ContainerInspect _ | CreateContainer _ | ContainerStart _ => true
      | _ => false
      end
  end.

(** Neither a connection attempt nor a sleep. *)
Definition is_untimed (e : Event) : bool :=
  match e with
  | Ev c =>
      match c with
      | DbConnect _ | Sleep _ => false
      | _ => true
      end
  end.

(** A call that, if it opens a database connection, opens it to [p]. *)
Definition connects_to (p : ConnectionParameters) (e : Event) : Prop :=
  match e with
  | Ev c =>
      match c with
      | DbConnect q => q = p
      | _ => True
      end
  end.

Fixpoint attempts_of (l : list Tick) : nat :=
  match l with
  | [] => 0
  | Attempt :: l' => S (attempts_of l')
  | Wait _ :: l' => attempts_of l'
  end.

(** Milliseconds slept in all. *)
Fixpoint total_wait (l : list Tick) : Z :=
  match l with
  | [] => 0
  | Attempt :: l' => total_wait l'
  | Wait ms :: l' => ms + total_wait l'
  end.

(** Requests that attach a container to a network. *)
Definition is_attach (e : Event) : bool :=
  match e with
  | Ev c => match c with NetworkConnect _ _ => true | _ => false end
  end.

(** A call that, if it attaches a container, attaches the one named [id]. *)
Definition attaches (id : option string) (e : Event) : Prop :=
  match e with
  | Ev c =>
      match c with
      | NetworkConnect _ o => Some (connect_Container o) = id
      | _ => True
      end
  end.

(** * Properties *)

(** ** Running composed programs *)

Section RunFacts.

Variable env : Env.

Lemma run_bind {A B : Type} (p : Prog A) (f : A -> Prog B) (h : list Event) :
  run env h (bind p f) =
  match run env h p with
  | (Resolved a, t) => let '(o, t') := run env (h ++ t) (f a) in (o, t ++ t')
  | (Rejected e, t) => (Rejected e, t)
  | (Crashed e, t) => (Crashed e, t)
  end.
Proof.
  revert h; induction p as [a | e | e | X c k IH]; intros h; simpl.
  - rewrite app_nil_r. destruct (run env h (f a)); reflexivity.
  - reflexivity.
  - reflexivity.
  - rewrite IH.
    destruct (run env (h ++ [Ev c]) (k (env h X c))) as [[a | e | e] t]; try reflexivity.
    rewrite <- app_assoc; simpl.
    destruct (run env (h ++ Ev c :: t) (f a)); reflexivity.
Qed.

Lemma run_try_catch {A : Type} (p : Prog A) (hd : Err -> Prog A) (h : list Event) :
  run env h (try_catch p hd) =
  match run env h p with
  | (Rejected e, t) => let '(o, t') := run env (h ++ t) (hd e) in (o, t ++ t')
  | r => r
  end.
Proof.
  revert h; induction p as [a | e | e | X c k IH]; intros h; simpl.
  - reflexivity.
  - rewrite app_nil_r. destruct (run env h (hd e)); reflexivity.
  - reflexivity.
  - rewrite IH.
    destruct (run env (h ++ [Ev c]) (k (env h X c))) as [[a | e | e] t]; try reflexivity.
    rewrite <- app_assoc; simpl.
    destruct (run env (h ++ Ev c :: t) (hd e)); reflexivity.
Qed.

Lemma run_await {X : Type} (c : Call X) (h : list Event) :
  run env h (await c) =
  (match env h X c with Ok x => Resolved x | Error e => Rejected e end, [Ev c]).
Proof. simpl. destruct (env h X c); reflexivity. Qed.

Lemma run_emit (c : Call unit) (h : list Event) :
  run env h (emit c) = (Resolved tt, [Ev c]).
Proof. reflexivity. Qed.

(** A program whose calls all satisfy [P] leaves a trace that does. *)
Lemma only_trace {A : Type} (P : Event -> Prop) (p : Prog A) :
  Only P p -> forall h, Forall P (trace env h p).
Proof.
  unfold trace. induction 1 as [a | e | e | X c k Hc _ IH]; intros h; simpl;
    try constructor.
  specialize (IH (env h X c) (h ++ [Ev c])).
  destruct (run env (h ++ [Ev c]) (k (env h X c))); simpl in *.
  constructor; assumption.
Qed.

End RunFacts.

Lemma only_bind {A B : Type} (P : Event -> Prop) (p : Prog A) (f : A -> Prog B) :
  Only P p -> (forall a, Only P (f a)) -> Only P (bind p f).
Proof.
  induction 1; intros Hf; simpl; try constructor; auto.
Qed.

Lemma only_try_catch {A : Type} (P : Event -> Prop) (p : Prog A) (hd : Err -> Prog A) :
  Only P p -> (forall e, Only P (hd e)) -> Only P (try_catch p hd).
Proof.
  induction 1; intros Hh; simpl; try constructor; auto.
Qed.

Lemma only_await {X : Type} (P : Event -> Prop) (c : Call X) :
  P (Ev c) -> Only P (await c).
Proof.
  intros Hc; constructor; [assumption | intros [x | e]; constructor].
Qed.

Lemma only_emit (P : Event -> Prop) (c : Call unit) :
  P (Ev c) -> Only P (emit c).
Proof.
  intros Hc; constructor; [assumption | intros; constructor].
Qed.

(** ** Counting and projecting traces *)

Lemma count_app (f : Event -> bool) (t u : list Event) :
  count f (t ++ u) = count f t + count f u.
Proof. unfold count. rewrite filter_app, length_app. reflexivity. Qed.

Lemma count_none (f : Event -> bool) (t : list Event) :
  Forall (fun e => f e = false) t -> count f t = 0.
Proof.
  unfold count. induction 1 as [| e t He _ IH]; simpl; [reflexivity |].
  rewrite He. exact IH.
Qed.

Lemma filter_none (f : Event -> bool) (t : list Event) :
  Forall (fun e => f e = false) t -> filter f t = [].
Proof.
  induction 1 as [| e t He _ IH]; simpl; [reflexivity |].
  rewrite He. exact IH.
Qed.

Lemma timeline_app (t u : list Event) :
  timeline (t ++ u) = timeline t ++ timeline u.
Proof.
  induction t as [| [X c] t IH]; simpl; [reflexivity |].
  destruct c; simpl; rewrite IH; reflexivity.
Qed.

Lemma waits_app (l m : list Tick) : waits (l ++ m) = waits l ++ waits m.
Proof.
  induction l as [| [| ms] l IH]; simpl; [reflexivity | exact IH |].
  rewrite IH. reflexivity.
Qed.

Lemma waits_failed_rounds (n : nat) (w : Z) :
  waits (failed_rounds n w) = backoff n w.
Proof.
  revert w; induction n as [| n IH]; intros w; simpl; [reflexivity |].
  rewrite IH. reflexivity.
Qed.

(** ** The retry loop, for either variant's [connect] *)

Section VerifierFacts.

Variable connect :
  PortVal -> option string -> string -> string -> string -> string -> Prog bool.

Variables (externalPort : PortVal) (currentContainerId : option string)
          (itContainerName dbUsername dbPassword dbName : string).

Let attempt : Prog bool :=
  connect externalPort currentContainerId itContainerName dbUsername dbPassword dbName.

Let loop : nat -> Z -> option Err -> Prog LoopExit :=
  attempts connect externalPort currentContainerId itContainerName
    dbUsername dbPassword dbName.

Let verifyDatabaseConnection : bool -> option (Prog unit) -> Prog (option bool) :=
  verifyDatabaseConnection_with connect externalPort currentContainerId
    itContainerName dbUsername dbPassword dbName.

Variable env : Env.

(** One iteration, in terms of what the attempt did. *)
Lemma attempts_step (n : nat) (w : Z) (le : option Err) (h : list Event) :
  run env h (loop (S n) w le) =
  match run env h attempt with
  | (Resolved true, t) =>
      (Resolved Verified,
       t ++ [Ev (Log Info "DB Connection verified in : <elapsed> ms." None)])
  | (Resolved false, t) =>
      let '(o, t') := run env (h ++ t ++ [Ev (Sleep w)])
                        (loop n (w + round_half w)%Z le) in
      (o, t ++ Ev (Sleep w) :: t')
  | (Rejected e, t) =>
      let '(o, t') := run env (h ++ t ++ [Ev (Sleep w)])
                        (loop n (w + round_half w)%Z (Some e)) in
      (o, t ++ Ev (Sleep w) :: t')
  | (Crashed e, t) => (Crashed e, t)
  end.
Proof.
  unfold loop; simpl attempts. fold attempt. fold loop.
  rewrite run_bind, run_try_catch, run_bind.
  destruct (run env h attempt) as [[[|] | e | e] t]; simpl; try reflexivity.
  all: rewrite ?app_nil_r, <- ?app_assoc; simpl.
  - reflexivity.
  - destruct (run env (h ++ t ++ [Ev (Sleep w)]) (loop n (w + round_half w)%Z le));
      reflexivity.
  - destruct (run env (h ++ t ++ [Ev (Sleep w)]) (loop n (w + round_half w)%Z (Some e)));
      reflexivity.
Qed.

(** The loop catches every rejection of an attempt. *)
Lemma attempts_never_reject (n : nat) (w : Z) (le : option Err) (h : list Event) (e : Err) :
  outcome env h (loop n w le) <> Rejected e.
Proof.
  unfold outcome. revert w le h; induction n as [| n IH]; intros w le h.
  - simpl. discriminate.
  - rewrite attempts_step.
    destruct (run env h attempt) as [[[|] | e' | e'] t]; simpl; try discriminate.
    + specialize (IH (w + round_half w)%Z le (h ++ t ++ [Ev (Sleep w)])).
      destruct (run env (h ++ t ++ [Ev (Sleep w)]) (loop n (w + round_half w)%Z le)).
      exact IH.
    + specialize (IH (w + round_half w)%Z (Some e') (h ++ t ++ [Ev (Sleep w)])).
      destruct (run env (h ++ t ++ [Ev (Sleep w)]) (loop n (w + round_half w)%Z (Some e'))).
      exact IH.
Qed.

(** With verification enabled, the verifier is the loop followed, on
    exhaustion, by the warning and the call of [stopFn]. *)
Lemma verify_enabled_run (stopFn : option (Prog unit)) (h : list Event) :
  run env h (verifyDatabaseConnection true stopFn) =
  match run env h (loop 10 500 None) with
  | (Resolved Verified, t) => (Resolved (Some true), t)
  | (Resolved (Exhausted le), t) =>
      let warning := Ev (Log Warn "DB connection failed:" le) in
      let '(o, ts) := run env (h ++ t ++ [warning]) (call_fn "stopFn" stopFn) in
      (match o with
       | Resolved _ => Resolved (Some false)
       | Rejected e => Rejected e
       | Crashed e => Crashed e
       end, t ++ warning :: ts)
  | (Rejected e, t) => (Rejected e, t)
  | (Crashed e, t) => (Crashed e, t)
  end.
Proof.
  unfold verifyDatabaseConnection, verifyDatabaseConnection_with. fold loop.
  rewrite run_bind.
  destruct (run env h (loop 10 500 None)) as [[[| le] | e | e] t]; try reflexivity.
  - simpl. rewrite app_nil_r. reflexivity.
  - cbn [bind emit]. cbn [run].
    rewrite run_bind, <- app_assoc.
    destruct (run env (h ++ t ++ [Ev (Log Warn "DB connection failed:" le)])
                (call_fn "stopFn" stopFn)) as [[[] | e | e] ts];
      simpl; rewrite ?app_nil_r; reflexivity.
Qed.

Lemma verify_disabled_run (stopFn : option (Prog unit)) (h : list Event) :
  run env h (verifyDatabaseConnection false stopFn) = (Resolved None, []).
Proof. reflexivity. Qed.

(** An attempt opens exactly one connection and never sleeps. *)
Hypothesis attempt_ticks : forall h, timeline (trace env h attempt) = [Attempt].

(** Attempts and waits of the loop, whatever the environment answers: [k]
    failed rounds and a last attempt with no wait after it when the loop is
    left early, [n] failed rounds when it runs out. *)
Lemma attempts_timeline (n : nat) (w : Z) (le : option Err) (h : list Event) :
  match run env h (loop n w le) with
  | (Resolved Verified, t) =>
      exists k, k < n /\ timeline t = failed_rounds k w ++ [Attempt]
  | (Resolved (Exhausted _), t) => timeline t = failed_rounds n w
  | (Rejected _, _) => False
  | (Crashed _, t) =>
      exists k, k < n /\ timeline t = failed_rounds k w ++ [Attempt]
  end.
Proof.
  revert w le h; induction n as [| n IH]; intros w le h.
  - reflexivity.
  - rewrite attempts_step. pose proof (attempt_ticks h) as Ht. unfold trace in Ht.
    destruct (run env h attempt) as [[[|] | e | e] t]; simpl in Ht.
    + exists 0. split; [lia |]. rewrite timeline_app, Ht. reflexivity.
    + specialize (IH (w + round_half w)%Z le (h ++ t ++ [Ev (Sleep w)])).
      destruct (run env (h ++ t ++ [Ev (Sleep w)]) (loop n (w + round_half w)%Z le))
        as [[[| le'] | e' | e'] t']; rewrite ?timeline_app, ?Ht; simpl.
      * destruct IH as [k [Hk IH]]. exists (S k). split; [lia |]. rewrite IH. reflexivity.
      * rewrite IH. reflexivity.
      * exact IH.
      * destruct IH as [k [Hk IH]]. exists (S k). split; [lia |]. rewrite IH. reflexivity.
    + specialize (IH (w + round_half w)%Z (Some e) (h ++ t ++ [Ev (Sleep w)])).
      destruct (run env (h ++ t ++ [Ev (Sleep w)]) (loop n (w + round_half w)%Z (Some e)))
        as [[[| le'] | e' | e'] t']; rewrite ?timeline_app, ?Ht; simpl.
      * destruct IH as [k [Hk IH]]. exists (S k). split; [lia |]. rewrite IH. reflexivity.
      * rewrite IH. reflexivity.
      * exact IH.
      * destruct IH as [k [Hk IH]]. exists (S k). split; [lia |]. rewrite IH. reflexivity.
    + exists 0. split; [lia |]. rewrite Ht. reflexivity.
Qed.

(** When every attempt is rejected the loop runs out, remembering an error. *)
Lemma attempts_exhausted (n : nat) (w : Z) (le : option Err) (h : list Event) :
  (forall h', exists e, outcome env h' attempt = Rejected e) ->
  exists le', outcome env h (loop n w le) = Resolved (Exhausted le')
              /\ (le <> None \/ 0 < n -> le' <> None).
Proof.
  intros Hfail. unfold outcome in *.
  revert w le h; induction n as [| n IH]; intros w le h.
  - exists le. split; [reflexivity |]. intros [Hle | Hn]; [exact Hle | lia].
  - rewrite attempts_step. destruct (Hfail h) as [e He].
    destruct (run env h attempt) as [o t]; simpl in He; subst o.
    destruct (IH (w + round_half w)%Z (Some e) (h ++ t ++ [Ev (Sleep w)]))
      as [le' [Hle Hn]].
    destruct (run env (h ++ t ++ [Ev (Sleep w)]) (loop n (w + round_half w)%Z (Some e)))
      as [o' t']; simpl in *; subst o'.
    exists le'. split; [reflexivity |]. intros _.
    apply Hn. left. discriminate.
Qed.

End VerifierFacts.

(** ** A single connection attempt *)

Lemma dockerode_connect_run (env : Env) (h : list Event)
  (externalPort : PortVal) (currentContainerId : option string)
  (itContainerName dbUsername dbPassword dbName : string) :
  let p := connection_parameters externalPort currentContainerId itContainerName
             dbUsername dbPassword dbName in
  run env h (Dockerode.connect externalPort currentContainerId itContainerName
               dbUsername dbPassword dbName) =
  match env h _ (DbConnect p) with
  | Error e => (Rejected e, [Ev (DbConnect p)])
  | Ok _ =>
      (match env (h ++ [Ev (DbConnect p); Ev (DbQuery SENTINEL_QUERY)]) _ DbDestroy with
       | Error ex => Crashed ex
       | Ok _ =>
           match env (h ++ [Ev (DbConnect p)]) _ (DbQuery SENTINEL_QUERY) with
           | Error e => Rejected e
           | Ok n => if Nat.eqb n 1 then Resolved true else Rejected InvalidLength
           end
       end,
       [Ev (DbConnect p); Ev (DbQuery SENTINEL_QUERY); Ev DbDestroy])
  end.
Proof.
  intros p. unfold Dockerode.connect. fold p. cbn [run].
  destruct (env h unit (DbConnect p)) as [[] | e]; [| reflexivity].
  cbn [run]. rewrite <- !app_assoc. cbn [app].
  destruct (env (h ++ [Ev (DbConnect p); Ev (DbQuery SENTINEL_QUERY)]) unit DbDestroy)
    as [[] | ex]; [| reflexivity].
  destruct (env (h ++ [Ev (DbConnect p)]) nat (DbQuery SENTINEL_QUERY)) as [n | e];
    [| reflexivity].
  destruct (Nat.eqb n 1); reflexivity.
Qed.

(** In the node-docker-api variant the trace also carries debug lines, so the
    lemma gives the outcome and the driver calls. *)
Lemma node_docker_api_connect_run (env : Env) (h : list Event)
  (externalPort : PortVal) (currentContainerId : option string)
  (itContainerName dbUsername dbPassword dbName : string) :
  let p := connection_parameters externalPort currentContainerId itContainerName
             dbUsername dbPassword dbName in
  let r := run env h (NodeDockerApi.connect externalPort currentContainerId
                        itContainerName dbUsername dbPassword dbName) in
  match env h _ (DbConnect p) with
  | Error e =>
      r = (Rejected e, [Ev (DbConnect p);
                        Ev (Log Debug "Failed to connect to database" (Some e))])
  | Ok _ =>
      fst r = match env (h ++ [Ev (DbConnect p)]) _ (DbQuery SENTINEL_QUERY) with
              | Error e => Rejected e
              | Ok n => if Nat.eqb n 1 then Resolved true else Rejected InvalidLength
              end
      /\ count is_destroy (snd r) = 1
      /\ timeline (snd r) = [Attempt]
      /\ attempts_in (snd r) = 1
  end.
Proof.
  intros p r. subst r. unfold NodeDockerApi.connect. fold p. cbn [run].
  destruct (env h unit (DbConnect p)) as [[] | e]; [| reflexivity].
  cbn [run].
  destruct (env (h ++ [Ev (DbConnect p)]) nat (DbQuery SENTINEL_QUERY)) as [n | e].
  - destruct (Nat.eqb n 1); cbn.
    + match goal with |- context [ env ?hh unit DbDestroy ] =>
        destruct (env hh unit DbDestroy) as [[] | ex] end;
        cbn; repeat split; discriminate.
    + match goal with |- context [ env ?hh unit DbDestroy ] =>
        destruct (env hh unit DbDestroy) as [[] | ex] end;
        cbn; repeat split; discriminate.
  - cbn.
    match goal with |- context [ env ?hh unit DbDestroy ] =>
      destruct (env hh unit DbDestroy) as [[] | ex] end;
      cbn; repeat split; discriminate.
Qed.

Lemma dockerode_connect_ticks (env : Env) (h : list Event)
  (externalPort : PortVal) (currentContainerId : option string)
  (itContainerName dbUsername dbPassword dbName : string) :
  timeline (trace env h (Dockerode.connect externalPort currentContainerId
                           itContainerName dbUsername dbPassword dbName)) = [Attempt].
Proof.
  unfold trace. rewrite dockerode_connect_run.
  match goal with |- context [ env h unit (DbConnect ?p) ] =>
    destruct (env h unit (DbConnect p)) as [[] | e] end; reflexivity.
Qed.

Lemma node_docker_api_connect_ticks (env : Env) (h : list Event)
  (externalPort : PortVal) (currentContainerId : option string)
  (itContainerName dbUsername dbPassword dbName : string) :
  timeline (trace env h (NodeDockerApi.connect externalPort currentContainerId
                           itContainerName dbUsername dbPassword dbName)) = [Attempt].
Proof.
  unfold trace.
  pose proof (node_docker_api_connect_run env h externalPort currentContainerId
                itContainerName dbUsername dbPassword dbName) as H.
  cbv zeta in H.
  match type of H with context [ env h unit (DbConnect ?p) ] =>
    destruct (env h unit (DbConnect p)) as [[] | e] end.
  - apply H.
  - rewrite H. reflexivity.
Qed.

(** *** Counterexample to C8 as stated: a refused connection is rejected but
    never closed, in either variant. *)
Lemma connect_refused_is_not_closed :
  run (scripted (fresh_engine db_down)) []
      (Dockerode.connect (PortNumber 3806) None "node-it-container-qwerty12345"
         "ituser" "ituser" "nursebuddy")
  = (Rejected (External "ECONNREFUSED"),
     [Ev (DbConnect {| host := "127.0.0.1"; port := PortNumber 3806;
                       user := "ituser"; password := "ituser";
                       database := "nursebuddy" |})])
  /\ outcome (scripted (fresh_engine db_down)) []
       (NodeDockerApi.connect (PortNumber 3806) None "node-it-container-qwerty12345"
          "ituser" "ituser" "nursebuddy")
     = Rejected (External "ECONNREFUSED")
  /\ count is_destroy
       (trace (scripted (fresh_engine db_down)) []
          (NodeDockerApi.connect (PortNumber 3806) None "node-it-container-qwerty12345"
             "ituser" "ituser" "nursebuddy"))
     = 0.
Proof. repeat split. Qed.

(** *** C8, amended.  One attempt sends the sentinel query
    [SELECT id AS id FROM integration_test_flag LIMIT 1].  In
    [src/unnamed/part_000] it resolves exactly when the connection opens and
    the query answers one row, and every other case is a rejection, whatever
    [destroy] does; in [src/node-it-docker.js] the same holds when [destroy]
    returns normally.  In both variants the connection is destroyed exactly
    once when it was opened, on success as on failure, and not at all when
    opening it failed. *)
Theorem connect_attempt_outcomes (env : Env) (h : list Event)
  (externalPort : PortVal) (currentContainerId : option string)
  (itContainerName dbUsername dbPassword dbName : string) :
  let p := connection_parameters externalPort currentContainerId itContainerName
             dbUsername dbPassword dbName in
  let n := run env h (NodeDockerApi.connect externalPort currentContainerId
                        itContainerName dbUsername dbPassword dbName) in
  let d := run env h (Dockerode.connect externalPort currentContainerId
                        itContainerName dbUsername dbPassword dbName) in
  (fst n = Resolved true <-> opened env h p = true /\ rows env h p = Some 1)
  /\ (fst n = Resolved true \/ exists e, fst n = Rejected e)
  /\ count is_destroy (snd n) = (if opened env h p then 1 else 0)
  /\ (if destroy_returns env h p
      then (fst d = Resolved true <-> opened env h p = true /\ rows env h p = Some 1)
           /\ (fst d = Resolved true \/ exists e, fst d = Rejected e)
      else True)
  /\ snd d = (if opened env h p
             then [Ev (DbConnect p); Ev (DbQuery SENTINEL_QUERY); Ev DbDestroy]
             else [Ev (DbConnect p)]).
Proof.
  intros p n d.
  pose proof (node_docker_api_connect_run env h externalPort currentContainerId
                itContainerName dbUsername dbPassword dbName) as Hn.
  pose proof (dockerode_connect_run env h externalPort currentContainerId
                itContainerName dbUsername dbPassword dbName) as Hd.
  cbv zeta in Hn, Hd. fold p in Hn, Hd. fold n in Hn. fold d in Hd.
  unfold opened, rows, destroy_returns.
  destruct (env h unit (DbConnect p)) as [[] | e].
  - destruct Hn as [Ho [Hc _]]. rewrite Ho, Hc, Hd. cbn [fst snd].
    destruct (env (h ++ [Ev (DbConnect p)]) nat (DbQuery SENTINEL_QUERY)) as [k | e];
      destruct (env (h ++ [Ev (DbConnect p); Ev (DbQuery SENTINEL_QUERY)]) unit DbDestroy)
        as [[] | ex].
    all: try (destruct k as [| [| k]]; cbn [Nat.eqb]).
    all: repeat split; try reflexivity; try tauto; try discriminate; eauto.
    all: intros H; decompose [and] H; clear H; try discriminate; congruence.
  - rewrite Hn, Hd. cbn [fst snd].
    destruct (env (h ++ [Ev (DbConnect p); Ev (DbQuery SENTINEL_QUERY)]) unit DbDestroy)
      as [[] | ex].
    all: repeat split; try reflexivity; try discriminate; eauto.
    all: try (intros [Hq _]; discriminate).
Qed.

(** A scripted database that refuses every connection rejects every attempt. *)
Lemma refused_attempts (w : World) (h : list Event)
  (externalPort : PortVal) (currentContainerId : option string)
  (itContainerName dbUsername dbPassword dbName : string) :
  (forall i, exists e, connect_answer (db w i) = Error e) ->
  exists e, outcome (scripted w) h
              (Dockerode.connect externalPort currentContainerId itContainerName
                 dbUsername dbPassword dbName) = Rejected e.
Proof.
  intros Hdown. unfold outcome. rewrite dockerode_connect_run. cbv zeta.
  cbn [scripted]. destruct (Hdown (attempts_in h)) as [e He]. rewrite He.
  exists e. reflexivity.
Qed.

(** ** The backoff schedule *)

Lemma verifier_schedule
  (connect : PortVal -> option string -> string -> string -> string -> string -> Prog bool)
  (externalPort : PortVal) (currentContainerId : option string)
  (itContainerName dbUsername dbPassword dbName : string)
  (env : Env) (stopFn : option (Prog unit)) (h : list Event) :
  let attempt := connect externalPort currentContainerId itContainerName
                   dbUsername dbPassword dbName in
  let verifier := verifyDatabaseConnection_with connect externalPort currentContainerId
                    itContainerName dbUsername dbPassword dbName true stopFn in
  (forall h', timeline (trace env h' attempt) = [Attempt]) ->
  ((forall h', exists e, outcome env h' attempt = Rejected e) ->
   exists t le,
     let warning := Ev (Log Warn "DB connection failed:" (Some le)) in
     run env h verifier =
       (match outcome env (h ++ t ++ [warning]) (call_fn "stopFn" stopFn) with
        | Resolved _ => Resolved (Some false)
        | Rejected e => Rejected e
        | Crashed e => Crashed e
        end,
        t ++ warning :: trace env (h ++ t ++ [warning]) (call_fn "stopFn" stopFn))
     /\ timeline t = failed_rounds 10 500)
  /\ (outcome env h verifier = Resolved (Some true) ->
      exists k, k < 10 /\ timeline (trace env h verifier) = failed_rounds k 500 ++ [Attempt]).
Proof.
  intros attempt verifier Hticks.
  pose proof (verify_enabled_run connect externalPort currentContainerId itContainerName
                dbUsername dbPassword dbName env stopFn h) as Hrun.
  pose proof (attempts_timeline connect externalPort currentContainerId itContainerName
                dbUsername dbPassword dbName env Hticks 10 500 None h) as Htl.
  fold verifier in Hrun. split.
  - intros Hfail.
    destruct (attempts_exhausted connect externalPort currentContainerId itContainerName
                dbUsername dbPassword dbName env 10 500 None h Hfail) as [le' [Hout Hle]].
    unfold outcome in Hout.
    destruct (run env h (attempts connect externalPort currentContainerId itContainerName
                           dbUsername dbPassword dbName 10 500 None)) as [o t].
    simpl in Hout; subst o.
    destruct le' as [le |]; [| exfalso; apply Hle; [right; lia | reflexivity]].
    exists t, le. cbv zeta. split; [| exact Htl].
    rewrite Hrun. cbv zeta. unfold outcome, trace.
    destruct (run env (h ++ t ++ [Ev (Log Warn "DB connection failed:" (Some le))])
                (call_fn "stopFn" stopFn)); reflexivity.
  - unfold outcome, trace. rewrite Hrun. clear Hrun.
    destruct (run env h (attempts connect externalPort currentContainerId itContainerName
                           dbUsername dbPassword dbName 10 500 None))
      as [[[| le] | e | e] t]; cbn [fst snd].
    + intros _. exact Htl.
    + destruct (run env _ (call_fn "stopFn" stopFn)) as [[[] | e | e] ts];
        cbn [fst]; discriminate.
    + discriminate.
    + discriminate.
Qed.

(** *** Counterexample to C2 as stated: against a database that refuses every
    connection the verifier sleeps ten times, not nine; the tenth wait
    (19229 ms) follows the tenth attempt. *)
Lemma ten_waits_when_database_is_down :
  timeline
    (trace (scripted (fresh_engine db_down)) []
       (Dockerode.verifyDatabaseConnection true (PortNumber 3806) None
          "node-it-container-qwerty12345" "ituser" "ituser" "nursebuddy" None))
  = [Attempt; Wait 500; Attempt; Wait 750; Attempt; Wait 1125; Attempt; Wait 1688;
     Attempt; Wait 2532; Attempt; Wait 3798; Attempt; Wait 5697; Attempt; Wait 8546;
     Attempt; Wait 12819; Attempt; Wait 19229]
  /\ List.length
       (waits
          (timeline
             (trace (scripted (fresh_engine db_down)) []
                (Dockerode.verifyDatabaseConnection true (PortNumber 3806) None
                   "node-it-container-qwerty12345" "ituser" "ituser" "nursebuddy" None))))
     <> 9.
Proof. split; [reflexivity | discriminate]. Qed.

(** *** C2, amended.  Given a connectivity check that fails on every attempt,
    the verifier of either variant performs exactly 10 attempts and waits
    after each of them, the 10th included: 10 waits following the schedule
    w0 = 500 ms, w(n+1) = w(n) + round(w(n)/2), that is 500, 750, 1125, 1688,
    2532, 3798, 5697, 8546, 12819, 19229; then it logs the last error and calls
    [stopFn].  When the verifier returns [true] after [k < 10] failed attempts
    there are exactly [k] waits, one after each failed attempt, and none after
    the successful one. *)
Theorem backoff_schedule
  (connect : PortVal -> option string -> string -> string -> string -> string -> Prog bool)
  (externalPort : PortVal) (currentContainerId : option string)
  (itContainerName dbUsername dbPassword dbName : string)
  (env : Env) (stopFn : option (Prog unit)) (h : list Event) :
  connect = Dockerode.connect \/ connect = NodeDockerApi.connect ->
  let attempt := connect externalPort currentContainerId itContainerName
                   dbUsername dbPassword dbName in
  let verifier := verifyDatabaseConnection_with connect externalPort currentContainerId
                    itContainerName dbUsername dbPassword dbName true stopFn in
  ((forall h', exists e, outcome env h' attempt = Rejected e) ->
   exists t le,
     trace env h verifier =
       t ++ Ev (Log Warn "DB connection failed:" (Some le))
         :: trace env (h ++ t ++ [Ev (Log Warn "DB connection failed:" (Some le))])
              (call_fn "stopFn" stopFn)
     /\ timeline t =
        [Attempt; Wait 500; Attempt; Wait 750; Attempt; Wait 1125; Attempt; Wait 1688;
         Attempt; Wait 2532; Attempt; Wait 3798; Attempt; Wait 5697; Attempt; Wait 8546;
         Attempt; Wait 12819; Attempt; Wait 19229]
     /\ waits (timeline t) = backoff 10 500)
  /\ (outcome env h verifier = Resolved (Some true) ->
      exists k, k < 10
                /\ timeline (trace env h verifier) = failed_rounds k 500 ++ [Attempt]
                /\ waits (timeline (trace env h verifier)) = backoff k 500).
Proof.
  intros Hc attempt verifier.
  assert (Hticks : forall h', timeline (trace env h' attempt) = [Attempt]).
  { intros h'. subst attempt.
    destruct Hc as [-> | ->];
      [apply dockerode_connect_ticks | apply node_docker_api_connect_ticks]. }
  destruct (verifier_schedule connect externalPort currentContainerId itContainerName
              dbUsername dbPassword dbName env stopFn h Hticks) as [Hdown Hup].
  subst verifier attempt. split.
  - intros Hfail. destruct (Hdown Hfail) as [t [le [Hrun Htl]]].
    exists t, le. cbv zeta in Hrun. unfold trace at 1.
    rewrite Hrun. cbn [snd].
    repeat split; [exact Htl | rewrite Htl; reflexivity].
  - intros Hok. destruct (Hup Hok) as [k [Hk Htl]].
    exists k. repeat split; [exact Hk | exact Htl |].
    rewrite Htl, waits_app, waits_failed_rounds. simpl. apply app_nil_r.
Qed.

Lemma backoff_schedule_witness :
  (exists t le,
     trace (scripted (fresh_engine db_down)) []
       (verifyDatabaseConnection_with Dockerode.connect (PortNumber 3806) None
          "node-it-container-qwerty12345" "ituser" "ituser" "nursebuddy" true None)
     = t ++ Ev (Log Warn "DB connection failed:" (Some le))
         :: trace (scripted (fresh_engine db_down))
              ([] ++ t ++ [Ev (Log Warn "DB connection failed:" (Some le))])
              (@call_fn unit "stopFn" None)
     /\ timeline t =
        [Attempt; Wait 500; Attempt; Wait 750; Attempt; Wait 1125; Attempt; Wait 1688;
         Attempt; Wait 2532; Attempt; Wait 3798; Attempt; Wait 5697; Attempt; Wait 8546;
         Attempt; Wait 12819; Attempt; Wait 19229]
     /\ waits (timeline t) = backoff 10 500)
  /\ (exists k, k < 10
       /\ timeline
            (trace (scripted (fresh_engine (db_ready_from 3))) []
               (verifyDatabaseConnection_with NodeDockerApi.connect (PortNumber 3806) None
                  "node-it-container-qwerty12345" "ituser" "ituser" "nursebuddy" true None))
          = failed_rounds k 500 ++ [Attempt]
       /\ waits
            (timeline
               (trace (scripted (fresh_engine (db_ready_from 3))) []
                  (verifyDatabaseConnection_with NodeDockerApi.connect (PortNumber 3806) None
                     "node-it-container-qwerty12345" "ituser" "ituser" "nursebuddy" true None)))
          = backoff k 500).
Proof.
  split.
  - apply (proj1 (backoff_schedule Dockerode.connect (PortNumber 3806) None
                    "node-it-container-qwerty12345" "ituser" "ituser" "nursebuddy"
                    (scripted (fresh_engine db_down)) None [] (or_introl eq_refl))).
    intros h'. apply refused_attempts. intros i. eexists. reflexivity.
  - apply (proj2 (backoff_schedule NodeDockerApi.connect (PortNumber 3806) None
                    "node-it-container-qwerty12345" "ituser" "ituser" "nursebuddy"
                    (scripted (fresh_engine (db_ready_from 3))) None []
                    (or_intror eq_refl))).
    reflexivity.
Defined.

(** ** Programs that settle, and programs that can only reject *)

Lemma settles_bind {A B : Type} (p : Prog A) (f : A -> Prog B) :
  Settles p -> (forall a, Settles (f a)) -> Settles (bind p f).
Proof. induction 1; intros Hf; simpl; try constructor; auto. Qed.

Lemma settles_try_catch {A : Type} (p : Prog A) (hd : Err -> Prog A) :
  Settles p -> (forall e, Settles (hd e)) -> Settles (try_catch p hd).
Proof. induction 1; intros Hh; simpl; try constructor; auto. Qed.

Lemma settles_await {X : Type} (c : Call X) : Settles (await c).
Proof. constructor; intros [x | e]; constructor. Qed.

Lemma settles_emit (c : Call unit) : Settles (emit c).
Proof. constructor; intros; constructor. Qed.

Lemma settles_outcome {A : Type} (env : Env) (p : Prog A) :
  Settles p -> forall h e, outcome env h p <> Crashed e.
Proof.
  unfold outcome. induction 1 as [a | e' | X c k _ IH]; intros h e; simpl;
    try discriminate.
  specialize (IH (env h X c) (h ++ [Ev c]) e).
  destruct (run env (h ++ [Ev c]) (k (env h X c))). exact IH.
Qed.

Ltac settle :=
  repeat first
    [ apply settles_bind | apply settles_try_catch | apply settles_await
    | apply settles_emit | constructor | intro
    | match goal with
      | |- Settles (match ?x with _ => _ end) => destruct x
      end ].

Ltac only_calls :=
  repeat first
    [ apply only_bind | apply only_try_catch
    | apply only_await; reflexivity | apply only_emit; reflexivity
    | apply Only_Ret | apply Only_Throw | apply Only_Crash
    | apply Only_Vis; [reflexivity |] | intro
    | match goal with
      | |- Only _ (match ?x with _ => _ end) => destruct x
      end ].

Lemma only_weaken {A : Type} (P Q : Event -> Prop) (p : Prog A) :
  (forall e, P e -> Q e) -> Only P p -> Only Q p.
Proof. intros HPQ; induction 1; constructor; auto. Qed.

(** If [p] settles and whatever follows it rejects, the sequence rejects. *)
Lemma bind_rejects {A B : Type} (env : Env) (p : Prog A) (f : A -> Prog B) (h : list Event) :
  Settles p ->
  (forall a h', exists e, outcome env h' (f a) = Rejected e) ->
  exists e, outcome env h (bind p f) = Rejected e.
Proof.
  intros Hp Hf. unfold outcome. rewrite run_bind.
  pose proof (settles_outcome env p Hp h) as Hnc. unfold outcome in Hnc.
  destruct (run env h p) as [[a | e | e] t]; simpl in *.
  - destruct (Hf a (h ++ t)) as [e He]. unfold outcome in He.
    destruct (run env (h ++ t) (f a)); simpl in *. eauto.
  - eauto.
  - exfalso. exact (Hnc e eq_refl).
Qed.

Lemma bind_rejected {A B : Type} (env : Env) (p : Prog A) (f : A -> Prog B)
  (h : list Event) (e : Err) :
  outcome env h p = Rejected e -> outcome env h (bind p f) = Rejected e.
Proof.
  unfold outcome. rewrite run_bind. destruct (run env h p) as [[a | e' | e'] t];
    simpl; congruence.
Qed.

(** A [try] body that rejects hands over to its handler. *)
Lemma try_catch_rejected {A : Type} (env : Env) (p : Prog A) (hd : Err -> Prog A)
  (h : list Event) (e' : Err) :
  (exists e, outcome env h p = Rejected e) ->
  (forall e h', outcome env h' (hd e) = Rejected e') ->
  outcome env h (try_catch p hd) = Rejected e'.
Proof.
  intros [e He] Hh. unfold outcome in *. rewrite run_try_catch.
  destruct (run env h p) as [o t]; simpl in He; subst o.
  specialize (Hh e (h ++ t)). destruct (run env (h ++ t) (hd e)); simpl in *.
  exact Hh.
Qed.

(** ** Calls the verifier can make *)

Lemma only_attempts (P : Event -> Prop)
  (connect : PortVal -> option string -> string -> string -> string -> string -> Prog bool)
  (externalPort : PortVal) (currentContainerId : option string)
  (itContainerName dbUsername dbPassword dbName : string) :
  Only P (connect externalPort currentContainerId itContainerName
            dbUsername dbPassword dbName) ->
  (forall l m p, P (Ev (Log l m p))) ->
  (forall ms, P (Ev (Sleep ms))) ->
  forall n w le,
    Only P (attempts connect externalPort currentContainerId itContainerName
              dbUsername dbPassword dbName n w le).
Proof.
  intros Hc Hlog Hsleep. induction n as [| n IH]; intros w le; cbn [attempts].
  - constructor.
  - apply only_bind.
    + apply only_try_catch; [| intro; constructor].
      apply only_bind; [exact Hc |].
      intros [|]; [| constructor].
      apply only_bind; [apply only_emit, Hlog | intro; constructor].
    + intros [| le']; [constructor |].
      apply only_bind; [apply only_emit, Hsleep | intro; apply IH].
Qed.

Lemma only_verifier (P : Event -> Prop)
  (connect : PortVal -> option string -> string -> string -> string -> string -> Prog bool)
  (externalPort : PortVal) (currentContainerId : option string)
  (itContainerName dbUsername dbPassword dbName : string)
  (verifyDbConnection : bool) (stopFn : option (Prog unit)) :
  Only P (connect externalPort currentContainerId itContainerName
            dbUsername dbPassword dbName) ->
  (forall l m p, P (Ev (Log l m p))) ->
  (forall ms, P (Ev (Sleep ms))) ->
  Only P (call_fn "stopFn" stopFn) ->
  Only P (verifyDatabaseConnection_with connect externalPort currentContainerId
            itContainerName dbUsername dbPassword dbName verifyDbConnection stopFn).
Proof.
  intros Hc Hlog Hsleep Hstop. unfold verifyDatabaseConnection_with.
  destruct verifyDbConnection; [| constructor].
  apply only_bind; [apply only_attempts; assumption |].
  intros [| le]; [constructor |].
  apply only_bind; [apply only_emit, Hlog |]. intros _.
  apply only_bind; [exact Hstop | intro; constructor].
Qed.

Lemma dockerode_connect_only
  (externalPort : PortVal) (currentContainerId : option string)
  (itContainerName dbUsername dbPassword dbName : string) :
  Only (fun e => is_verifier_call e = true)
    (Dockerode.connect externalPort currentContainerId itContainerName
       dbUsername dbPassword dbName).
Proof. unfold Dockerode.connect. only_calls. Qed.

Lemma node_docker_api_connect_only
  (externalPort : PortVal) (currentContainerId : option string)
  (itContainerName dbUsername dbPassword dbName : string) :
  Only (fun e => is_verifier_call e = true)
    (NodeDockerApi.connect externalPort currentContainerId itContainerName
       dbUsername dbPassword dbName).
Proof.
  unfold NodeDockerApi.connect, NodeDockerApi.destroy_quietly. only_calls.
Qed.

(** ** Exhaustion: what [start] and [restart] pass as [stopFn] *)

Lemma this_stop_is_undefined : @this_member unit "stop" = None.
Proof. reflexivity. Qed.

Lemma this_start_is_undefined :
  @this_member (option ConnectionParameters) "start" = None.
Proof. reflexivity. Qed.

Lemma verifier_call_is_no_teardown (e : Event) :
  is_verifier_call e = true -> is_teardown e = false.
Proof. destruct e as [X c]; destruct c; simpl; congruence. Qed.

Lemma verifier_call_is_no_engine_request (e : Event) :
  is_verifier_call e = true -> is_engine_request e = false.
Proof. destruct e as [X c]; destruct c; simpl; congruence. Qed.

Lemma dockerode_verify_exhausted (cfg : Config) (env : Env) (h : list Event) :
  verifyDbConnection cfg = true ->
  (forall h', exists e,
      outcome env h'
        (Dockerode.connect (externalPort cfg) (currentContainerId cfg)
           (itContainerName cfg) (dbUsername cfg) (dbPassword cfg) (dbName cfg))
      = Rejected e) ->
  outcome env h (Dockerode.verify cfg (this_member "stop"))
  = Rejected (TypeError "stopFn is not a function").
Proof.
  intros Hv Hfail.
  unfold Dockerode.verify, Dockerode.verifyDatabaseConnection, outcome.
  rewrite Hv, this_stop_is_undefined, verify_enabled_run.
  destruct (attempts_exhausted Dockerode.connect (externalPort cfg)
              (currentContainerId cfg) (itContainerName cfg) (dbUsername cfg)
              (dbPassword cfg) (dbName cfg) env 10 500 None h Hfail) as [le [Hout _]].
  unfold outcome in Hout.
  destruct (run env h (attempts Dockerode.connect (externalPort cfg)
                         (currentContainerId cfg) (itContainerName cfg)
                         (dbUsername cfg) (dbPassword cfg) (dbName cfg) 10 500 None))
    as [o t].
  simpl in Hout; subst o. reflexivity.
Qed.

Lemma dockerode_verify_no_teardown (cfg : Config) :
  Only (fun e => is_teardown e = false) (Dockerode.verify cfg (this_member "stop")).
Proof.
  unfold Dockerode.verify, Dockerode.verifyDatabaseConnection.
  apply only_verifier; try reflexivity.
  - eapply only_weaken; [apply verifier_call_is_no_teardown |].
    apply dockerode_connect_only.
  - rewrite this_stop_is_undefined. constructor.
Qed.

Lemma dockerode_start_no_teardown (cfg : Config) :
  Only (fun e => is_teardown e = false) (Dockerode.start cfg).
Proof.
  unfold Dockerode.start.
  apply only_bind; [unfold Dockerode.getOrCreateNetwork; only_calls | intros network].
  apply only_bind; [only_calls | intros container].
  apply only_bind; [only_calls | intros _].
  apply only_bind;
    [unfold Dockerode.connectRunningContainerToNetwork; only_calls | intros _].
  apply only_bind; [apply dockerode_verify_no_teardown | intros ok].
  destruct (verified ok); constructor.
Qed.

(** *** C1: the code departs from the claim.  With verification enabled and a
    database that rejects every attempt, the verifier called by [start] and
    [restart] does not return [false]: the [stopFn] it was handed,
    [this.stop], is [undefined], so calling it raises a [TypeError].  [start]
    and [restart] therefore reject instead of resolving to [null], and no
    request that would stop or remove anything reaches the engine. *)
Theorem start_rejects_when_database_never_ready
  (cfg : Config) (env : Env) (h : list Event) :
  verifyDbConnection cfg = true ->
  (forall h', exists e,
      outcome env h'
        (Dockerode.connect (externalPort cfg) (currentContainerId cfg)
           (itContainerName cfg) (dbUsername cfg) (dbPassword cfg) (dbName cfg))
      = Rejected e) ->
  outcome env h (Dockerode.verify cfg (this_member "stop"))
    = Rejected (TypeError "stopFn is not a function")
  /\ (exists e, outcome env h (Dockerode.start cfg) = Rejected e)
  /\ outcome env h (Dockerode.restart cfg)
     = Rejected (TypeError "this.start is not a function")
  /\ count is_teardown (trace env h (Dockerode.start cfg)) = 0.
Proof.
  intros Hv Hfail. repeat split.
  - apply dockerode_verify_exhausted; assumption.
  - unfold Dockerode.start.
    apply bind_rejects; [unfold Dockerode.getOrCreateNetwork; settle | intros network h1].
    apply bind_rejects; [settle | intros container h2].
    apply bind_rejects; [settle | intros _ h3].
    apply bind_rejects;
      [unfold Dockerode.connectRunningContainerToNetwork; settle | intros _ h4].
    eexists. apply bind_rejected. apply dockerode_verify_exhausted; assumption.
  - unfold Dockerode.restart. apply try_catch_rejected.
    + apply bind_rejects; [settle | intros _ h1].
      eexists. apply bind_rejected. apply dockerode_verify_exhausted; assumption.
    + intros e h'. rewrite this_start_is_undefined. reflexivity.
  - apply count_none. apply only_trace. apply dockerode_start_no_teardown.
Qed.

Lemma start_rejects_when_database_never_ready_witness :
  outcome (scripted (fresh_engine db_down)) [] (Dockerode.start default_config)
  = Rejected (TypeError "stopFn is not a function")
  /\ (exists e, outcome (scripted (fresh_engine db_down)) []
                  (Dockerode.start default_config) = Rejected e)
  /\ count is_teardown
       (trace (scripted (fresh_engine db_down)) [] (Dockerode.start default_config)) = 0.
Proof.
  split; [reflexivity |].
  refine ((fun H => conj (proj1 (proj2 H)) (proj2 (proj2 (proj2 H))))
            (start_rejects_when_database_never_ready default_config
               (scripted (fresh_engine db_down)) [] _ _)).
  - reflexivity.
  - intros h'. apply refused_attempts. intros i. eexists. reflexivity.
Defined.

(** ** Verification switched off *)

Lemma bind_not_resolved_to {A B : Type} (env : Env) (p : Prog A) (f : A -> Prog B)
  (h : list Event) (b : B) :
  (forall a h', outcome env h' (f a) <> Resolved b) ->
  outcome env h (bind p f) <> Resolved b.
Proof.
  intros Hf. unfold outcome. rewrite run_bind.
  destruct (run env h p) as [[a | e | e] t]; simpl; try discriminate.
  specialize (Hf a (h ++ t)). unfold outcome in Hf.
  destruct (run env (h ++ t) (f a)); exact Hf.
Qed.

Lemma dockerode_verify_disabled (cfg : Config) (stopFn : option (Prog unit)) :
  verifyDbConnection cfg = false -> Dockerode.verify cfg stopFn = Ret None.
Proof.
  intros Hv. unfold Dockerode.verify, Dockerode.verifyDatabaseConnection,
    verifyDatabaseConnection_with. rewrite Hv. reflexivity.
Qed.

(** *** C3: the code departs from the claim.  With [verifyDbConnection] false
    the verifier returns [undefined], which [start] reads as a failed
    verification: the verifier makes no call at all, and whatever the engine
    answers [start] never resolves with connection parameters. *)
Theorem start_without_verification_never_returns_parameters
  (cfg : Config) (env : Env) (h : list Event) :
  verifyDbConnection cfg = false ->
  (forall stopFn h', run env h' (Dockerode.verify cfg stopFn) = (Resolved None, []))
  /\ (forall p, outcome env h (Dockerode.start cfg) <> Resolved (Some p)).
Proof.
  intros Hv. split.
  - intros stopFn h'. rewrite dockerode_verify_disabled by assumption. reflexivity.
  - intros p. unfold Dockerode.start.
    do 4 (apply bind_not_resolved_to; intros ? ?).
    rewrite dockerode_verify_disabled by assumption. cbn. discriminate.
Qed.

Lemma start_without_verification_witness :
  run (scripted (fresh_engine db_ready)) [] (Dockerode.start unverified_config)
  = (Resolved None,
     [Ev ListNetworks;
      Ev (Log Info "No existing network, creating it." None);
      Ev (CreateNetwork {| net_Name := "node-it-test-net"; CheckDuplicate := true;
                           Attachable := true |});
      Ev (Log Info "Network 'node-it-test-net' created" None);
      Ev (ContainerInspect "node-it-container-qwerty12345");
      Ev (Log Info "Creating container" None);
      Ev (CreateContainer (container_options unverified_config));
      Ev (Log Info "Container 'c0ffee' created." None);
      Ev (ContainerStart "c0ffee")])
  /\ (forall p,
        outcome (scripted (fresh_engine db_ready)) [] (Dockerode.start unverified_config)
        <> Resolved (Some p)).
Proof.
  split; [reflexivity |].
  exact (proj2 (start_without_verification_never_returns_parameters unverified_config
                  (scripted (fresh_engine db_ready)) [] eq_refl)).
Defined.

(** ** Connection parameters *)

Lemma configured_id_is_truthy (penv : ProcessEnv) (o : Options) :
  truthy (currentContainerId (configure penv o))
  = match currentContainerId (configure penv o) with
    | Some _ => true
    | None => false
    end.
Proof.
  unfold configure, js_or; cbn [currentContainerId].
  destruct (truthy (IT_CONTAINER penv)) eqn:Henv.
  - rewrite Henv. rewrite Henv. destruct (IT_CONTAINER penv); [reflexivity | discriminate].
  - destruct (truthy (opt_currentContainerId o)) eqn:Hopt.
    + rewrite Hopt. destruct (opt_currentContainerId o); [reflexivity | discriminate].
    + reflexivity.
Qed.

(** *** C4.  [getDbConnectionParameters] makes no call and resolves, whatever
    the environment and however often it is called, with the object fixed by
    the constructed configuration: with an external container id, [host] is the
    container name and [port] the string ['3306']; without one, [host] is
    ['127.0.0.1'] and [port] the configured external port; [user], [password]
    and [database] are the configured credentials.  Both variants agree. *)
Theorem getDbConnectionParameters_pure
  (penv : ProcessEnv) (o : Options) (env : Env) (h : list Event) :
  let cfg := configure penv o in
  let expected :=
    {| host := match currentContainerId cfg with
               | Some _ => itContainerName cfg
               | None => "127.0.0.1"
               end;
       port := match currentContainerId cfg with
               | Some _ => PortString "3306"
               | None => externalPort cfg
               end;
       user := dbUsername cfg;
       password := dbPassword cfg;
       database := dbName cfg |} in
  run env h (getDbConnectionParameters (Dockerode.NodeItDocker penv o))
    = (Resolved expected, [])
  /\ run env h (getDbConnectionParameters (NodeDockerApi.NodeItDocker penv o))
     = (Resolved expected, []).
Proof.
  intros cfg expected. subst expected.
  pose proof (configured_id_is_truthy penv o) as Ht. fold cfg in Ht.
  unfold Dockerode.NodeItDocker, NodeDockerApi.NodeItDocker.
  cbn [getDbConnectionParameters Dockerode.getDbConnectionParameters
       NodeDockerApi.getDbConnectionParameters run].
  unfold Dockerode.parameters, NodeDockerApi.parameters, connection_parameters.
  fold cfg. rewrite !Ht.
  destruct (currentContainerId cfg); split; reflexivity.
Qed.

(** ** Symbolic execution of straight-line code

    [answer env] splits on the environment's answer to the next call;
    [execute env] runs a program of calls with no loop to its end. *)

Ltac answer env :=
  match goal with
  | |- context [ env ?h ?X ?c ] =>
      let r := fresh "r" in
      let E := fresh "E" in
      destruct (env h X c) as [r | r] eqn:E
  end.

Ltac execute env :=
  cbn [run bind try_catch await emit call_fn];
  repeat (answer env; cbn [run bind try_catch await emit call_fn]).

(** ** [stop] *)

(** *** C5: the claim holds for [src/node-it-docker.js] and fails for
    [src/unnamed/part_000].  The dockerode [stop] resolves whatever the engine
    answers, and its last call is either the closing info line or the warning
    carrying the error it swallowed.  The node-docker-api [stop] has no
    [try]/[catch]: against an engine that holds no such container it rejects
    with the engine's error. *)
Theorem stop_swallows_failures_in_dockerode_only :
  (forall (cfg : Config) (env : Env) (h : list Event),
      outcome env h (Dockerode.stop cfg) = Resolved tt
      /\ (last (trace env h (Dockerode.stop cfg)) (Ev DbDestroy)
          = Ev (Log Info "Container stopped." None)
          \/ exists e,
              last (trace env h (Dockerode.stop cfg)) (Ev DbDestroy)
              = Ev (Log Warn "Failed to stop container or network:" (Some e))))
  /\ run (scripted (fresh_engine db_down)) [] (NodeDockerApi.stop default_config)
     = (Rejected not_found,
        [Ev (ContainerGet "node-it-container-qwerty12345");
         Ev (Log Info "Stopping container." None);
         Ev (ContainerStop "node-it-container-qwerty12345")]).
Proof.
  split; [| reflexivity].
  intros cfg env h. unfold outcome, trace.
  unfold Dockerode.stop, Dockerode.disconnectRunningContainerFromNetwork.
  destruct (currentContainerId cfg) as [id |]; cbn [truthy];
    [destruct (truthy_string id) |].
  all: execute env.
  all: cbn [fst snd last]; split; [reflexivity |]; eauto.
Qed.

(** *** C9.  In [src/node-it-docker.js], when stopping or removing the
    container fails, [stop] still resolves, its last call is the warning, and
    it has sent no request to disconnect from or remove the network. *)
Theorem failed_container_stop_skips_network_cleanup
  (cfg : Config) (env : Env) (h : list Event) :
  (exists e, env h _ (ContainerStop (itContainerName cfg)) = Error e)
  \/ (exists e, env (h ++ [Ev (ContainerStop (itContainerName cfg))]) _
                  (ContainerRemove (itContainerName cfg) true) = Error e) ->
  outcome env h (Dockerode.stop cfg) = Resolved tt
  /\ count is_network_cleanup (trace env h (Dockerode.stop cfg)) = 0
  /\ exists e,
       last (trace env h (Dockerode.stop cfg)) (Ev DbDestroy)
       = Ev (Log Warn "Failed to stop container or network:" (Some e)).
Proof.
  intros Hfail. unfold outcome, trace.
  unfold Dockerode.stop, Dockerode.disconnectRunningContainerFromNetwork.
  cbn [run bind try_catch await emit].
  destruct (env h unit (ContainerStop (itContainerName cfg))) as [[] | e] eqn:Estop;
    cbn [run bind try_catch await emit].
  - destruct Hfail as [[e He] | [e He]]; [discriminate |].
    rewrite He. cbn. eauto.
  - cbn. eauto.
Qed.

Lemma failed_container_stop_witness :
  outcome (scripted (fresh_engine db_down)) [] (Dockerode.stop runner_config)
  = Resolved tt
  /\ count is_network_cleanup
       (trace (scripted (fresh_engine db_down)) [] (Dockerode.stop runner_config)) = 0
  /\ exists e,
       last (trace (scripted (fresh_engine db_down)) [] (Dockerode.stop runner_config))
            (Ev DbDestroy)
       = Ev (Log Warn "Failed to stop container or network:" (Some e)).
Proof.
  apply (failed_container_stop_skips_network_cleanup runner_config
           (scripted (fresh_engine db_down)) []).
  left. exists not_found. reflexivity.
Defined.

(** ** [restart] *)

(** *** C6: the code departs from the claim.  When the restart request fails
    the dockerode [restart] logs the warning and calls [this.start], which is
    [undefined]: it rejects with a [TypeError] without a single call of the
    start flow.  The node-docker-api [restart] has no handler at all: a failed
    restart request rejects with the engine's error, and with no usable handle
    it fails on [this.start] in the same way.  And when the container is
    present but the database rejects every attempt, the dockerode [restart]
    rejects with that [TypeError] too instead of resolving to [null]. *)
Theorem restart_of_missing_container_rejects
  (cfg : Config) (env : Env) (h : list Event) :
  (forall e,
      env h _ (ContainerRestart (itContainerName cfg)) = Error e ->
      run env h (Dockerode.restart cfg)
      = (Rejected (TypeError "this.start is not a function"),
         [Ev (ContainerRestart (itContainerName cfg));
          Ev (Log Warn "Restart failed, starting new container." (Some e))]))
  /\ (verifyDbConnection cfg = true ->
      (forall h', exists e,
          outcome env h'
            (Dockerode.connect (externalPort cfg) (currentContainerId cfg)
               (itContainerName cfg) (dbUsername cfg) (dbPassword cfg) (dbName cfg))
          = Rejected e) ->
      outcome env h (Dockerode.restart cfg)
      = Rejected (TypeError "this.start is not a function"))
  /\ (forall got,
        env h _ (ContainerGet (itContainerName cfg)) = Ok got ->
        match NodeDockerApi.usable_id got with
        | Some id =>
            forall e',
              env (h ++ [Ev (ContainerGet (itContainerName cfg))]) _
                  (ContainerRestart id) = Error e' ->
              outcome env h (NodeDockerApi.restart cfg) = Rejected e'
        | None =>
            outcome env h (NodeDockerApi.restart cfg)
            = Rejected (TypeError "this.start is not a function")
        end).
Proof.
  repeat split.
  - intros e He. unfold Dockerode.restart. cbn [run bind try_catch await emit].
    rewrite He. reflexivity.
  - intros Hv Hfail. unfold Dockerode.restart. apply try_catch_rejected.
    + apply bind_rejects; [settle | intros _ h1].
      eexists. apply bind_rejected. apply dockerode_verify_exhausted; assumption.
    + intros e h'. rewrite this_start_is_undefined. reflexivity.
  - intros got Hgot. unfold outcome, NodeDockerApi.restart.
    cbn [run bind try_catch await emit]. rewrite Hgot. cbn [bind].
    destruct (NodeDockerApi.usable_id got) as [id |].
    + intros e' He'. cbn [run bind try_catch await emit]. rewrite He'. reflexivity.
    + reflexivity.
Qed.

Lemma restart_of_missing_container_witness :
  run (scripted (fresh_engine db_ready)) [] (Dockerode.restart default_config)
  = (Rejected (TypeError "this.start is not a function"),
     [Ev (ContainerRestart "node-it-container-qwerty12345");
      Ev (Log Warn "Restart failed, starting new container." (Some not_found))]).
Proof.
  exact (proj1 (restart_of_missing_container_rejects default_config
                  (scripted (fresh_engine db_ready)) []) not_found eq_refl).
Defined.

(** ** [getOrCreateNetwork] *)

Lemma hd_error_filter {A : Type} (f : A -> bool) (l : list A) :
  hd_error (filter f l) = find f l.
Proof.
  induction l as [| a l IH]; simpl; [reflexivity |].
  destruct (f a); [reflexivity | exact IH].
Qed.

(** *** C7.  [getOrCreateNetwork] returns the handle of the listed network of
    that name after the listing call alone; when the listing fails or holds no
    such network it sends exactly one creation request, attachable and
    duplicate-checked, and resolves with the created network's handle or
    rejects with the creation's error.  (The node-docker-api variant reads a
    listed entry whose [Id] is empty as no network.) *)
Theorem getOrCreateNetwork_reuses_or_creates
  (env : Env) (h : list Event) (containerNetworkName : string) :
  let create := CreateNetwork {| net_Name := containerNetworkName;
                                 CheckDuplicate := true;
                                 Attachable := true |} in
  let created := Ev (Log Info ("Network '" ++ containerNetworkName ++ "' created") None) in
  let creation (lookup : list Event) (r : Outcome string * list Event) :=
    filter is_create_network (snd r) = [Ev create]
    /\ r = match env (h ++ lookup) _ create with
           | Ok id => (Resolved id, lookup ++ [Ev create; created])
           | Error e => (Rejected e, lookup ++ [Ev create])
           end in
  match listed_network env h containerNetworkName with
  | Some found =>
      run env h (Dockerode.getOrCreateNetwork containerNetworkName)
      = (Resolved (Id found), [Ev ListNetworks])
      /\ if truthy_string (Id found)
         then run env h (NodeDockerApi.getOrCreateNetwork containerNetworkName)
              = (Resolved (Id found), [Ev ListNetworks])
         else creation (lookup_calls env h false)
                (run env h (NodeDockerApi.getOrCreateNetwork containerNetworkName))
  | None =>
      creation (lookup_calls env h true)
        (run env h (Dockerode.getOrCreateNetwork containerNetworkName))
      /\ creation (lookup_calls env h false)
           (run env h (NodeDockerApi.getOrCreateNetwork containerNetworkName))
  end.
Proof.
  intros create created creation. subst creation. cbv beta.
  unfold listed_network, lookup_calls.
  unfold Dockerode.getOrCreateNetwork, NodeDockerApi.getOrCreateNetwork.
  cbn [run bind try_catch await emit].
  destruct (env h (list NetworkInfo) ListNetworks) as [nets | e];
    cbn [run bind try_catch await emit].
  - rewrite hd_error_filter.
    destruct (find (fun n => String.eqb (Name n) containerNetworkName) nets)
      as [found |]; cbn [run bind try_catch await emit].
    + split; [reflexivity |].
      destruct (truthy_string (Id found)); [reflexivity |].
      fold create created. cbn [run bind try_catch await emit app].
      rewrite <- !app_assoc. cbn [app].
      destruct (env (h ++ [Ev ListNetworks;
                           Ev (Log Info "No existing network, creating it." None)])
                  string create); split; reflexivity.
    + fold create created. cbn [run bind try_catch await emit app].
      rewrite <- !app_assoc. cbn [app].
      destruct (env (h ++ [Ev ListNetworks;
                           Ev (Log Info "No existing network, creating it." None)])
                  string create); repeat split; reflexivity.
  - fold create created. cbn [run bind try_catch await emit app].
    rewrite <- !app_assoc. cbn [app].
    destruct (env (h ++ [Ev ListNetworks;
                         Ev (Log Debug "Failed to list docker networks." (Some e));
                         Ev (Log Info "No existing network, creating it." None)])
                string create);
      destruct (env (h ++ [Ev ListNetworks;
                           Ev (Log Debug "Failed to list docker networks." None);
                           Ev (Log Info "No existing network, creating it." None)])
                  string create); repeat split; reflexivity.
Qed.

(** ** The two variants of [start] against one scripted engine *)

Lemma attempts_in_app (t u : list Event) :
  attempts_in (t ++ u) = attempts_in t + attempts_in u.
Proof. apply count_app. Qed.

Lemma dockerode_connect_attempts (env : Env) (h : list Event)
  (externalPort : PortVal) (currentContainerId : option string)
  (itContainerName dbUsername dbPassword dbName : string) :
  attempts_in (trace env h (Dockerode.connect externalPort currentContainerId
                              itContainerName dbUsername dbPassword dbName)) = 1.
Proof.
  unfold trace. rewrite dockerode_connect_run.
  match goal with |- context [ env h unit (DbConnect ?p) ] =>
    destruct (env h unit (DbConnect p)) as [[] | e] end; reflexivity.
Qed.

Lemma node_docker_api_connect_attempts (env : Env) (h : list Event)
  (externalPort : PortVal) (currentContainerId : option string)
  (itContainerName dbUsername dbPassword dbName : string) :
  attempts_in (trace env h (NodeDockerApi.connect externalPort currentContainerId
                              itContainerName dbUsername dbPassword dbName)) = 1.
Proof.
  unfold trace.
  pose proof (node_docker_api_connect_run env h externalPort currentContainerId
                itContainerName dbUsername dbPassword dbName) as H.
  cbv zeta in H.
  match type of H with context [ env h unit (DbConnect ?p) ] =>
    destruct (env h unit (DbConnect p)) as [[] | e] end.
  - apply H.
  - rewrite H. reflexivity.
Qed.

Lemma attempts_in_after_connect (h : list Event) (p : ConnectionParameters)
  (t : list Event) :
  attempts_in t = 0 ->
  pred (attempts_in (h ++ Ev (DbConnect p) :: t)) = attempts_in h.
Proof.
  intros Ht. rewrite attempts_in_app.
  change (attempts_in (Ev (DbConnect p) :: t)) with (S (attempts_in t)).
  rewrite Ht. lia.
Qed.

Lemma scripted_dockerode_attempt (w : World) (h : list Event)
  (externalPort : PortVal) (currentContainerId : option string)
  (itContainerName dbUsername dbPassword dbName : string) :
  (forall i, destroy_answer (db w i) = Ok tt) ->
  outcome (scripted w) h
    (Dockerode.connect externalPort currentContainerId itContainerName
       dbUsername dbPassword dbName)
  = attempt_result (db w (attempts_in h)).
Proof.
  intros Hdestroy. unfold outcome. rewrite dockerode_connect_run. cbv zeta.
  cbn [scripted]. unfold attempt_result.
  rewrite !attempts_in_after_connect by reflexivity. rewrite Hdestroy.
  destruct (connect_answer (db w (attempts_in h))) as [[] | e]; [| reflexivity].
  cbn [fst]. destruct (query_answer (db w (attempts_in h))); reflexivity.
Qed.

Lemma scripted_node_docker_api_attempt (w : World) (h : list Event)
  (externalPort : PortVal) (currentContainerId : option string)
  (itContainerName dbUsername dbPassword dbName : string) :
  outcome (scripted w) h
    (NodeDockerApi.connect externalPort currentContainerId itContainerName
       dbUsername dbPassword dbName)
  = attempt_result (db w (attempts_in h)).
Proof.
  unfold outcome.
  pose proof (node_docker_api_connect_run (scripted w) h externalPort currentContainerId
                itContainerName dbUsername dbPassword dbName) as H.
  cbv zeta in H. cbn [scripted] in H. unfold attempt_result.
  rewrite attempts_in_after_connect in H by reflexivity.
  destruct (connect_answer (db w (attempts_in h))) as [[] | e].
  - apply H.
  - rewrite H. reflexivity.
Qed.

(** Started after histories holding the same number of attempts, the two
    loops leave in the same way. *)
Lemma scripted_attempts_agree (w : World)
  (externalPort : PortVal) (currentContainerId : option string)
  (itContainerName dbUsername dbPassword dbName : string) :
  (forall i, destroy_answer (db w i) = Ok tt) ->
  forall n wp le h1 h2,
    attempts_in h1 = attempts_in h2 ->
    outcome (scripted w) h1
      (attempts Dockerode.connect externalPort currentContainerId itContainerName
         dbUsername dbPassword dbName n wp le)
    = outcome (scripted w) h2
        (attempts NodeDockerApi.connect externalPort currentContainerId itContainerName
           dbUsername dbPassword dbName n wp le).
Proof.
  intros Hdestroy. induction n as [| n IH]; intros wp le h1 h2 Hh; [reflexivity |].
  unfold outcome. rewrite !attempts_step.
  pose proof (scripted_dockerode_attempt w h1 externalPort currentContainerId
                itContainerName dbUsername dbPassword dbName Hdestroy) as H1.
  pose proof (scripted_node_docker_api_attempt w h2 externalPort currentContainerId
                itContainerName dbUsername dbPassword dbName) as H2.
  pose proof (dockerode_connect_attempts (scripted w) h1 externalPort currentContainerId
                itContainerName dbUsername dbPassword dbName) as A1.
  pose proof (node_docker_api_connect_attempts (scripted w) h2 externalPort
                currentContainerId itContainerName dbUsername dbPassword dbName) as A2.
  unfold outcome, trace in H1, H2, A1, A2. rewrite <- Hh in H2.
  destruct (run (scripted w) h1
              (Dockerode.connect externalPort currentContainerId itContainerName
                 dbUsername dbPassword dbName)) as [o1 t1].
  destruct (run (scripted w) h2
              (NodeDockerApi.connect externalPort currentContainerId itContainerName
                 dbUsername dbPassword dbName)) as [o2 t2].
  cbn [fst snd] in *. subst o1 o2.
  assert (Hnext : attempts_in (h1 ++ t1 ++ [Ev (Sleep wp)])
                  = attempts_in (h2 ++ t2 ++ [Ev (Sleep wp)])).
  { rewrite !attempts_in_app, A1, A2, Hh. reflexivity. }
  destruct (attempt_result (db w (attempts_in h1))) as [[|] | e | e]; try reflexivity.
  - specialize (IH (wp + round_half wp)%Z le _ _ Hnext). unfold outcome in IH.
    destruct (run (scripted w) (h1 ++ t1 ++ [Ev (Sleep wp)]) _),
             (run (scripted w) (h2 ++ t2 ++ [Ev (Sleep wp)]) _); exact IH.
  - specialize (IH (wp + round_half wp)%Z (Some e) _ _ Hnext). unfold outcome in IH.
    destruct (run (scripted w) (h1 ++ t1 ++ [Ev (Sleep wp)]) _),
             (run (scripted w) (h2 ++ t2 ++ [Ev (Sleep wp)]) _); exact IH.
Qed.

Lemma scripted_verify_agree (w : World) (cfg : Config) (h1 h2 : list Event) :
  (forall i, destroy_answer (db w i) = Ok tt) ->
  attempts_in h1 = attempts_in h2 ->
  outcome (scripted w) h1 (Dockerode.verify cfg (this_member "stop"))
  = outcome (scripted w) h2 (NodeDockerApi.verify cfg (this_member "stop")).
Proof.
  intros Hdestroy Hh.
  unfold Dockerode.verify, NodeDockerApi.verify, Dockerode.verifyDatabaseConnection,
    NodeDockerApi.verifyDatabaseConnection, outcome.
  destruct (verifyDbConnection cfg); [| reflexivity].
  rewrite !verify_enabled_run, this_stop_is_undefined.
  pose proof (scripted_attempts_agree w (externalPort cfg) (currentContainerId cfg)
                (itContainerName cfg) (dbUsername cfg) (dbPassword cfg) (dbName cfg)
                Hdestroy 10 500%Z None h1 h2 Hh) as H.
  unfold outcome in H.
  destruct (run (scripted w) h1 _) as [o1 t1], (run (scripted w) h2 _) as [o2 t2].
  cbn [fst] in H. subst o2.
  destruct o1 as [[| le] | e | e]; reflexivity.
Qed.

Lemma dockerode_verify_no_engine_request (cfg : Config) :
  Only (fun e => is_engine_request e = false)
    (Dockerode.verify cfg (this_member "stop")).
Proof.
  unfold Dockerode.verify, Dockerode.verifyDatabaseConnection.
  apply only_verifier; try reflexivity.
  - eapply only_weaken; [apply verifier_call_is_no_engine_request |].
    apply dockerode_connect_only.
  - rewrite this_stop_is_undefined. constructor.
Qed.

Lemma node_docker_api_verify_no_engine_request (cfg : Config) :
  Only (fun e => is_engine_request e = false)
    (NodeDockerApi.verify cfg (this_member "stop")).
Proof.
  unfold NodeDockerApi.verify, NodeDockerApi.verifyDatabaseConnection.
  apply only_verifier; try reflexivity.
  - eapply only_weaken; [apply verifier_call_is_no_engine_request |].
    apply node_docker_api_connect_only.
  - rewrite this_stop_is_undefined. constructor.
Qed.

Lemma start_tail_agree (w : World) (cfg : Config) (h1 h2 : list Event) :
  (forall i, destroy_answer (db w i) = Ok tt) ->
  attempts_in h1 = attempts_in h2 ->
  let r1 := run (scripted w) h1
              (ok <- Dockerode.verify cfg (this_member "stop") ;;
               if verified ok then Ret (Some (Dockerode.parameters cfg)) else Ret None) in
  let r2 := run (scripted w) h2
              (ok <- NodeDockerApi.verify cfg (this_member "stop") ;;
               if verified ok then Ret (Some (NodeDockerApi.parameters cfg)) else Ret None) in
  fst r1 = fst r2
  /\ filter is_engine_request (snd r1) = []
  /\ filter is_engine_request (snd r2) = [].
Proof.
  intros Hdestroy Hh r1 r2. subst r1 r2. rewrite !run_bind.
  pose proof (scripted_verify_agree w cfg h1 h2 Hdestroy Hh) as Ho.
  pose proof (only_trace (scripted w) _ _ (dockerode_verify_no_engine_request cfg) h1) as T1.
  pose proof (only_trace (scripted w) _ _ (node_docker_api_verify_no_engine_request cfg) h2)
    as T2.
  apply filter_none in T1, T2.
  unfold outcome, trace in Ho, T1, T2.
  destruct (run (scripted w) h1 _) as [o1 t1], (run (scripted w) h2 _) as [o2 t2].
  cbn [fst snd] in *. subst o2.
  destruct o1 as [ok | e | e]; cbn [fst snd]; auto.
  destruct (verified ok); cbn [run fst snd]; rewrite !app_nil_r; auto.
Qed.

(** Closes a branch of [start] that reached the verifier in both variants. *)
Ltac tail w cfg Hdestroy :=
  match goal with
  | |- context [ run (scripted w) ?hD (bind (Dockerode.verify cfg ?s) ?kD) ] =>
      match goal with
      | |- context [ run (scripted w) ?hN (bind (NodeDockerApi.verify cfg ?s') ?kN) ] =>
          let Ho := fresh "Ho" in
          let HD := fresh "HD" in
          let HN := fresh "HN" in
          destruct (start_tail_agree w cfg hD hN Hdestroy) as [Ho [HD HN]];
          [ rewrite !attempts_in_app; cbn; lia
          | cbv zeta in Ho, HD, HN;
            destruct (run (scripted w) hD (bind (Dockerode.verify cfg s) kD));
            destruct (run (scripted w) hN (bind (NodeDockerApi.verify cfg s') kN));
            cbn [fst snd] in Ho, HD, HN; subst;
            split; [reflexivity | simpl; rewrite ?HD, ?HN; reflexivity] ]
      end
  end.

(** One step against a scripted engine. *)
Ltac step := cbn [run bind try_catch await emit scripted].

(** *** Counterexample to C10 as stated.  Against a fresh engine the two
    variants send different engine requests: only the dockerode variant
    inspects the container.  And when [docker.container.get] hands back a
    handle that carries [data.Id], the node-docker-api variant never ensures
    the network: with an external container id configured it fails on the
    undefined [network] where the dockerode variant attaches and succeeds. *)
Lemma start_variants_differ :
  engine_requests
    (trace (scripted (fresh_engine db_ready)) [] (Dockerode.start default_config))
  = [Ev ListNetworks;
     Ev (CreateNetwork {| net_Name := "node-it-test-net"; CheckDuplicate := true;
                          Attachable := true |});
     Ev (ContainerInspect "node-it-container-qwerty12345");
     Ev (CreateContainer (container_options default_config));
     Ev (ContainerStart "c0ffee")]
  /\ engine_requests
       (trace (scripted (fresh_engine db_ready)) [] (NodeDockerApi.start default_config))
     = [Ev ListNetworks;
        Ev (CreateNetwork {| net_Name := "node-it-test-net"; CheckDuplicate := true;
                             Attachable := true |});
        Ev (CreateContainer (container_options default_config));
        Ev (ContainerStart "c0ffee")]
  /\ run (scripted (provisioned_engine db_ready)) [] (NodeDockerApi.start runner_config)
     = (Rejected (TypeError "Cannot read properties of undefined (reading 'connect')"),
        [Ev (ContainerGet "node-it-container-qwerty12345");
         Ev (ContainerStart "node-it-container-qwerty12345");
         Ev (Log Info "Connecting the current container ('runner') to the IT DB network."
               None)])
  /\ outcome (scripted (provisioned_engine db_ready)) [] (Dockerode.start runner_config)
     = Resolved (Some {| host := "node-it-container-qwerty12345";
                         port := PortString "3306";
                         user := "ituser"; password := "ituser";
                         database := "nursebuddy" |})
  /\ engine_requests
       (trace (scripted (provisioned_engine db_ready)) [] (Dockerode.start runner_config))
     = [Ev ListNetworks;
        Ev (ContainerInspect "node-it-container-qwerty12345");
        Ev (ContainerStart "node-it-container-qwerty12345");
        Ev (NetworkConnect "net-1" {| connect_Container := "runner";
                                      connect_Aliases := None |})].
Proof. repeat split. Qed.

(** *** C10, amended.  When the container has to be created (the dockerode
    variant's inspect request fails; the handle the node-docker-api variant
    gets lacks [id] or [data.Id]), then against one scripted engine and database,
    whose listing carries the networks' ids and whose [destroy] returns
    normally, both variants of [start] end with the same result, and they send
    the same engine requests in the same order except that the dockerode
    variant also sends the inspect request and the node-docker-api variant
    adds an alias to the attach request. *)
Theorem start_variants_agree_when_creating (w : World) (cfg : Config) (h : list Event) :
  (exists e, containerInspect_answer w = Error e) ->
  (exists got, containerGet_answer w = Ok got /\ NodeDockerApi.existing_id got = None) ->
  (forall i, destroy_answer (db w i) = Ok tt) ->
  (forall nets, listNetworks_answer w = Ok nets ->
                Forall (fun n => truthy_string (Id n) = true) nets) ->
  outcome (scripted w) h (Dockerode.start cfg)
  = outcome (scripted w) h (NodeDockerApi.start cfg)
  /\ filter (fun e => negb (is_inspect e))
       (engine_requests (trace (scripted w) h (Dockerode.start cfg)))
     = map without_alias
         (engine_requests (trace (scripted w) h (NodeDockerApi.start cfg))).
Proof.
  intros [e0 Hinspect] [got [Hget Hgot]] Hdestroy Hids.
  unfold outcome, trace, engine_requests.
  unfold Dockerode.start, NodeDockerApi.start, Dockerode.getOrCreateNetwork,
    NodeDockerApi.getOrCreateNetwork, Dockerode.connectRunningContainerToNetwork,
    NodeDockerApi.connectRunningContainerToNetwork.
  step. rewrite Hget. step. rewrite Hgot. step.
  destruct (listNetworks_answer w) as [nets | e] eqn:El; step.
  - rewrite hd_error_filter.
    destruct (find (fun n => String.eqb (Name n) (containerNetworkName cfg)) nets)
      as [found |] eqn:Ef; step.
    + assert (Hid : truthy_string (Id found) = true).
      { apply find_some in Ef. destruct Ef as [Hin _].
        specialize (Hids nets eq_refl). rewrite Forall_forall in Hids. auto. }
      rewrite Hid, Hinspect. step.
      destruct (createContainer_answer w) as [cid | e]; step; [| split; reflexivity].
      destruct (containerStart_answer w) as [[] | e]; step; [| split; reflexivity].
      destruct (currentContainerId cfg) as [id |]; [destruct (truthy_string id) |]; step.
      * destruct (networkConnect_answer w) as [[] | e]; step; [| split; reflexivity].
        tail w cfg Hdestroy.
      * tail w cfg Hdestroy.
      * tail w cfg Hdestroy.
    + destruct (createNetwork_answer w) as [net | e]; step; [| split; reflexivity].
      rewrite Hinspect. step.
      destruct (createContainer_answer w) as [cid | e]; step; [| split; reflexivity].
      destruct (containerStart_answer w) as [[] | e]; step; [| split; reflexivity].
      destruct (currentContainerId cfg) as [id |]; [destruct (truthy_string id) |]; step.
      * destruct (networkConnect_answer w) as [[] | e]; step; [| split; reflexivity].
        tail w cfg Hdestroy.
      * tail w cfg Hdestroy.
      * tail w cfg Hdestroy.
  - destruct (createNetwork_answer w) as [net | e']; step; [| split; reflexivity].
    rewrite Hinspect. step.
    destruct (createContainer_answer w) as [cid | e']; step; [| split; reflexivity].
    destruct (containerStart_answer w) as [[] | e']; step; [| split; reflexivity].
    destruct (currentContainerId cfg) as [id |]; [destruct (truthy_string id) |]; step.
    + destruct (networkConnect_answer w) as [[] | e']; step; [| split; reflexivity].
      tail w cfg Hdestroy.
    + tail w cfg Hdestroy.
    + tail w cfg Hdestroy.
Qed.

Lemma start_variants_agree_witness :
  outcome (scripted (fresh_engine (db_ready_from 2))) [] (Dockerode.start runner_config)
  = outcome (scripted (fresh_engine (db_ready_from 2))) []
      (NodeDockerApi.start runner_config)
  /\ filter (fun e => negb (is_inspect e))
       (engine_requests
          (trace (scripted (fresh_engine (db_ready_from 2))) []
             (Dockerode.start runner_config)))
     = map without_alias
         (engine_requests
            (trace (scripted (fresh_engine (db_ready_from 2))) []
               (NodeDockerApi.start runner_config))).
Proof.
  apply (start_variants_agree_when_creating (fresh_engine (db_ready_from 2))
           runner_config []).
  - exists not_found. reflexivity.
  - eexists. split; reflexivity.
  - intros i. unfold db_ready_from. cbn [fresh_engine db].
    destruct (Nat.ltb i 2); reflexivity.
  - intros nets Hnets. injection Hnets as <-. constructor.
Defined.

(** ** Concrete runs *)

(** [NodeItDocker({ dbName: 'nursebuddy', externalPort: 3806,
    verifyDbConnection: true })] against an engine and a database that answer
    at once: [start] resolves with the parameters and never sleeps. *)
Example start_succeeds_at_first_attempt :
  let facade :=
    Dockerode.NodeItDocker no_env
      {| opt_itImageName := None; opt_itContainerName := None;
         opt_externalPort := Some (PortNumber 3806);
         opt_containerNetworkName := None; opt_dataDir := None;
         opt_currentContainerId := None; opt_verifyDbConnection := Some true;
         opt_dbUsername := None; opt_dbPassword := None;
         opt_dbName := Some "nursebuddy" |} in
  outcome (scripted (fresh_engine db_ready)) [] (start facade)
  = Resolved (Some {| host := "127.0.0.1"; port := PortNumber 3806;
                      user := "ituser"; password := "ituser";
                      database := "nursebuddy" |})
  /\ timeline (trace (scripted (fresh_engine db_ready)) [] (start facade)) = [Attempt].
Proof. split; reflexivity. Qed.

(** A database that answers from the fourth attempt on: three waits. *)
Example start_succeeds_at_fourth_attempt :
  timeline
    (trace (scripted (fresh_engine (db_ready_from 3))) [] (Dockerode.start default_config))
  = [Attempt; Wait 500; Attempt; Wait 750; Attempt; Wait 1125; Attempt].
Proof. reflexivity. Qed.

(** With a callable [stopFn] the verifier does tear down once and return
    [false]: here the dockerode [stop] is handed over explicitly. *)
Example verifier_with_a_callable_stop :
  outcome (scripted (provisioned_engine db_down)) []
    (Dockerode.verify default_config (Some (Dockerode.stop default_config)))
  = Resolved (Some false)
  /\ filter is_teardown
       (trace (scripted (provisioned_engine db_down)) []
          (Dockerode.verify default_config (Some (Dockerode.stop default_config))))
     = [Ev (ContainerStop "node-it-container-qwerty12345");
        Ev (ContainerRemove "node-it-container-qwerty12345" true);
        Ev (NetworkRemove "node-it-test-net" true)].
Proof. split; reflexivity. Qed.

(** An existing network is reused; a missing one is created. *)
Example network_is_reused :
  run (scripted (provisioned_engine db_ready)) []
    (Dockerode.getOrCreateNetwork "node-it-test-net")
  = (Resolved "net-1", [Ev ListNetworks]).
Proof. reflexivity. Qed.

Example network_is_created :
  count is_create_network
    (trace (scripted (fresh_engine db_ready)) []
       (NodeDockerApi.getOrCreateNetwork "node-it-test-net")) = 1.
Proof. reflexivity. Qed.

(** The first wait periods: halves round up. *)
Example backoff_values :
  backoff 10 500 = [500; 750; 1125; 1688; 2532; 3798; 5697; 8546; 12819; 19229]%Z.
Proof. reflexivity. Qed.

(** * Further properties of the two variants *)

(** ** What a resolved [start] or [restart] means *)

Lemma bind_resolved {A B : Type} (env : Env) (p : Prog A) (f : A -> Prog B)
  (h : list Event) (b : B) :
  outcome env h (bind p f) = Resolved b ->
  exists a t, run env h p = (Resolved a, t) /\ outcome env (h ++ t) (f a) = Resolved b.
Proof.
  unfold outcome. rewrite run_bind.
  destruct (run env h p) as [[a | e | e] t]; simpl; try discriminate.
  intros H. exists a, t. split; [reflexivity |].
  destruct (run env (h ++ t) (f a)); exact H.
Qed.

Lemma try_catch_resolved {A : Type} (env : Env) (p : Prog A) (hd : Err -> Prog A)
  (h : list Event) (a : A) :
  (forall e h', outcome env h' (hd e) <> Resolved a) ->
  outcome env h (try_catch p hd) = Resolved a ->
  outcome env h p = Resolved a.
Proof.
  intros Hh. unfold outcome in *. rewrite run_try_catch.
  destruct (run env h p) as [[a' | e | e] t]; simpl; try discriminate; auto.
  specialize (Hh e (h ++ t)). destruct (run env (h ++ t) (hd e)); simpl in *.
  intros H. contradiction.
Qed.

(** Handed an undefined [stopFn], an enabled verifier that resolves has
    verified the connection. *)
Lemma verifier_resolves_only_verified
  (connect : PortVal -> option string -> string -> string -> string -> string -> Prog bool)
  (externalPort : PortVal) (currentContainerId : option string)
  (itContainerName dbUsername dbPassword dbName : string)
  (verifyDbConnection : bool) (env : Env) (h : list Event) (v : option bool) :
  outcome env h
    (verifyDatabaseConnection_with connect externalPort currentContainerId
       itContainerName dbUsername dbPassword dbName verifyDbConnection None)
  = Resolved v ->
  (verifyDbConnection = true /\ v = Some true)
  \/ (verifyDbConnection = false /\ v = None).
Proof.
  destruct verifyDbConnection.
  - unfold outcome. rewrite verify_enabled_run.
    destruct (run env h _) as [[[| le] | e | e] t]; cbn; try discriminate.
    intros H. injection H as <-. left. split; reflexivity.
  - cbn. intros H. injection H as <-. right. split; reflexivity.
Qed.

Lemma final_result (cfg : Config) (p : ConnectionParameters) (env : Env)
  (h : list Event) (ok : option bool) (r : option ConnectionParameters) :
  outcome env h (if verified ok then Ret (Some p) else Ret None) = Resolved r ->
  (verified ok = true /\ r = Some p) \/ (verified ok = false /\ r = None).
Proof.
  destruct (verified ok); cbn; intros H; injection H as <-; auto.
Qed.

Lemma dockerode_tail_resolution (cfg : Config) (env : Env) (h : list Event)
  (r : option ConnectionParameters) :
  outcome env h
    (ok <- Dockerode.verify cfg (this_member "stop") ;;
     if verified ok then Ret (Some (Dockerode.parameters cfg)) else Ret None)
  = Resolved r ->
  (verifyDbConnection cfg = true /\ r = Some (Dockerode.parameters cfg))
  \/ (verifyDbConnection cfg = false /\ r = None).
Proof.
  intros H. apply bind_resolved in H. destruct H as [ok [t [Hv Hr]]].
  assert (Ho : outcome env h (Dockerode.verify cfg (this_member "stop")) = Resolved ok)
    by (unfold outcome; rewrite Hv; reflexivity).
  unfold Dockerode.verify, Dockerode.verifyDatabaseConnection in Ho.
  rewrite this_stop_is_undefined in Ho.
  apply verifier_resolves_only_verified in Ho.
  apply (final_result cfg) in Hr.
  destruct Ho as [[Hon ->] | [Hoff ->]]; cbn in Hr;
    destruct Hr as [[Hb ->] | [Hb ->]]; try discriminate; auto.
Qed.

Lemma node_docker_api_tail_resolution (cfg : Config) (env : Env) (h : list Event)
  (r : option ConnectionParameters) :
  outcome env h
    (ok <- NodeDockerApi.verify cfg (this_member "stop") ;;
     if verified ok then Ret (Some (NodeDockerApi.parameters cfg)) else Ret None)
  = Resolved r ->
  (verifyDbConnection cfg = true /\ r = Some (NodeDockerApi.parameters cfg))
  \/ (verifyDbConnection cfg = false /\ r = None).
Proof.
  intros H. apply bind_resolved in H. destruct H as [ok [t [Hv Hr]]].
  assert (Ho : outcome env h (NodeDockerApi.verify cfg (this_member "stop")) = Resolved ok)
    by (unfold outcome; rewrite Hv; reflexivity).
  unfold NodeDockerApi.verify, NodeDockerApi.verifyDatabaseConnection in Ho.
  rewrite this_stop_is_undefined in Ho.
  apply verifier_resolves_only_verified in Ho.
  apply (final_result cfg) in Hr.
  destruct Ho as [[Hon ->] | [Hoff ->]]; cbn in Hr;
    destruct Hr as [[Hb ->] | [Hb ->]]; try discriminate; auto.
Qed.

(** Every way one of the four operations can resolve. *)
Lemma resolution_cases (cfg : Config) (env : Env) (h : list Event)
  (r : option ConnectionParameters) :
  outcome env h (Dockerode.start cfg) = Resolved r
  \/ outcome env h (Dockerode.restart cfg) = Resolved r
  \/ outcome env h (NodeDockerApi.start cfg) = Resolved r
  \/ outcome env h (NodeDockerApi.restart cfg) = Resolved r ->
  (verifyDbConnection cfg = true /\ r = Some (Dockerode.parameters cfg))
  \/ (verifyDbConnection cfg = false /\ r = None).
Proof.
  intros [H | [H | [H | H]]].
  - unfold Dockerode.start in H.
    do 4 (apply bind_resolved in H; destruct H as [? [? [_ H]]]).
    eapply dockerode_tail_resolution; eassumption.
  - unfold Dockerode.restart in H.
    apply try_catch_resolved in H.
    + apply bind_resolved in H; destruct H as [? [? [_ H]]].
      eapply dockerode_tail_resolution; eassumption.
    + intros e h'. rewrite this_start_is_undefined. discriminate.
  - unfold NodeDockerApi.start in H.
    do 2 (apply bind_resolved in H; destruct H as [? [? [_ H]]]).
    match type of H with context [ let '(_, _) := ?cn in _ ] => destruct cn end.
    do 2 (apply bind_resolved in H; destruct H as [? [? [_ H]]]).
    eapply node_docker_api_tail_resolution; eassumption.
  - unfold NodeDockerApi.restart in H.
    apply bind_resolved in H; destruct H as [got [? [_ H]]].
    destruct (NodeDockerApi.usable_id got).
    + apply bind_resolved in H; destruct H as [? [? [_ H]]].
      eapply node_docker_api_tail_resolution; eassumption.
    + rewrite this_start_is_undefined in H. discriminate.
Qed.

(** *** X1.  Whenever [start] or [restart] of either variant resolves with an
    object, verification is enabled and the object is the one
    [getDbConnectionParameters] resolves with, in both variants. *)
Theorem resolved_parameters_are_getDbConnectionParameters
  (cfg : Config) (env : Env) (h : list Event) (p : ConnectionParameters) :
  outcome env h (Dockerode.start cfg) = Resolved (Some p)
  \/ outcome env h (Dockerode.restart cfg) = Resolved (Some p)
  \/ outcome env h (NodeDockerApi.start cfg) = Resolved (Some p)
  \/ outcome env h (NodeDockerApi.restart cfg) = Resolved (Some p) ->
  verifyDbConnection cfg = true
  /\ (forall env' h',
        run env' h' (Dockerode.getDbConnectionParameters cfg) = (Resolved p, [])
        /\ run env' h' (NodeDockerApi.getDbConnectionParameters cfg) = (Resolved p, [])).
Proof.
  intros H. apply resolution_cases in H.
  destruct H as [[Hon Hp] | [_ Hp]]; [| discriminate].
  injection Hp as ->. split; [exact Hon |]. intros env' h'. split; reflexivity.
Qed.

Lemma resolved_parameters_witness :
  verifyDbConnection runner_config = true
  /\ (forall env' h',
        run env' h' (Dockerode.getDbConnectionParameters runner_config)
        = (Resolved {| host := "node-it-container-qwerty12345";
                       port := PortString "3306";
                       user := "ituser"; password := "ituser";
                       database := "nursebuddy" |}, [])
        /\ run env' h' (NodeDockerApi.getDbConnectionParameters runner_config)
           = (Resolved {| host := "node-it-container-qwerty12345";
                          port := PortString "3306";
                          user := "ituser"; password := "ituser";
                          database := "nursebuddy" |}, [])).
Proof.
  apply (resolved_parameters_are_getDbConnectionParameters runner_config
           (scripted (provisioned_engine (db_ready_from 2))) []).
  left. reflexivity.
Defined.

(** *** X2.  [start] and [restart] resolve with [null] only when verification
    is switched off: with verification enabled, a failed verification never
    comes back as [null]. *)
Theorem null_result_means_verification_disabled
  (cfg : Config) (env : Env) (h : list Event) :
  outcome env h (Dockerode.start cfg) = Resolved None
  \/ outcome env h (Dockerode.restart cfg) = Resolved None
  \/ outcome env h (NodeDockerApi.start cfg) = Resolved None
  \/ outcome env h (NodeDockerApi.restart cfg) = Resolved None ->
  verifyDbConnection cfg = false.
Proof.
  intros H. apply resolution_cases in H.
  destruct H as [[_ Hp] | [Hoff _]]; [discriminate | exact Hoff].
Qed.

Lemma null_result_witness : verifyDbConnection unverified_config = false.
Proof.
  apply (null_result_means_verification_disabled unverified_config
           (scripted (provisioned_engine db_down)) []).
  right. left. reflexivity.
Defined.

(** ** Bounds on the verifier *)

Lemma untimed_timeline (t : list Event) :
  Forall (fun e => is_untimed e = true) t -> timeline t = [].
Proof.
  induction 1 as [| [X c] t He _ IH]; [reflexivity |].
  destruct c; simpl in *; try discriminate; exact IH.
Qed.

Lemma attempts_of_app (l m : list Tick) :
  attempts_of (l ++ m) = attempts_of l + attempts_of m.
Proof.
  induction l as [| [| ms] l IH]; simpl; [reflexivity | rewrite IH; reflexivity | exact IH].
Qed.

Lemma total_wait_app (l m : list Tick) :
  total_wait (l ++ m) = (total_wait l + total_wait m)%Z.
Proof.
  induction l as [| [| ms] l IH]; simpl; [reflexivity | exact IH | rewrite IH; lia].
Qed.

(** The whole schedule sums to 56684 ms; any number of rounds up to 10 stays
    below that. *)
Lemma failed_rounds_bound (k : nat) :
  k <= 10 ->
  attempts_of (failed_rounds k 500) = k
  /\ (total_wait (failed_rounds k 500) <= 56684)%Z.
Proof.
  intros Hk.
  do 11 (destruct k as [| k]; [split; [reflexivity | vm_compute; discriminate] |]).
  lia.
Qed.

(** *** X3.  Whatever the database and the engine answer, the verifier of
    either variant opens at most 10 connections and sleeps at most 56684 ms in
    all, provided the [stopFn] it is handed neither connects nor sleeps. *)
Theorem verifier_is_bounded
  (connect : PortVal -> option string -> string -> string -> string -> string -> Prog bool)
  (externalPort : PortVal) (currentContainerId : option string)
  (itContainerName dbUsername dbPassword dbName : string)
  (verifyDbConnection : bool) (stopFn : option (Prog unit))
  (env : Env) (h : list Event) :
  connect = Dockerode.connect \/ connect = NodeDockerApi.connect ->
  Only (fun e => is_untimed e = true) (call_fn "stopFn" stopFn) ->
  let ticks :=
    timeline
      (trace env h
         (verifyDatabaseConnection_with connect externalPort currentContainerId
            itContainerName dbUsername dbPassword dbName verifyDbConnection stopFn)) in
  attempts_of ticks <= 10 /\ (total_wait ticks <= 56684)%Z.
Proof.
  intros Hc Hstop ticks. subst ticks.
  destruct verifyDbConnection; [| cbn; split; [lia | discriminate]].
  assert (Hticks : forall h',
             timeline (trace env h'
                         (connect externalPort currentContainerId itContainerName
                            dbUsername dbPassword dbName)) = [Attempt]).
  { intros h'. destruct Hc as [-> | ->];
      [apply dockerode_connect_ticks | apply node_docker_api_connect_ticks]. }
  pose proof (attempts_timeline connect externalPort currentContainerId itContainerName
                dbUsername dbPassword dbName env Hticks 10 500%Z None h) as Htl.
  unfold trace. rewrite verify_enabled_run.
  destruct (run env h _) as [[[| le] | e | e] t]; cbn [snd].
  - destruct Htl as [k [Hk ->]].
    rewrite attempts_of_app, total_wait_app.
    destruct (failed_rounds_bound k ltac:(lia)) as [-> Hw]. cbn. lia.
  - pose proof (only_trace env _ _ Hstop
                  (h ++ t ++ [Ev (Log Warn "DB connection failed:" le)])) as Hq.
    apply untimed_timeline in Hq. unfold trace in Hq.
    destruct (run env _ (call_fn "stopFn" stopFn)) as [o ts]. cbn [snd] in *.
    rewrite timeline_app. cbn [timeline]. rewrite Hq, app_nil_r, Htl.
    destruct (failed_rounds_bound 10 ltac:(lia)) as [-> Hw]. split; [lia | exact Hw].
  - contradiction.
  - destruct Htl as [k [Hk ->]].
    rewrite attempts_of_app, total_wait_app.
    destruct (failed_rounds_bound k ltac:(lia)) as [-> Hw]. cbn. lia.
Qed.

Lemma dockerode_stop_is_untimed (cfg : Config) :
  Only (fun e => is_untimed e = true) (Dockerode.stop cfg).
Proof.
  unfold Dockerode.stop, Dockerode.disconnectRunningContainerFromNetwork.
  destruct (currentContainerId cfg) as [id |]; cbn [truthy];
    [destruct (truthy_string id) |]; only_calls.
Qed.

Lemma verifier_is_bounded_witness :
  attempts_of
    (timeline
       (trace (scripted (provisioned_engine db_down)) []
          (verifyDatabaseConnection_with NodeDockerApi.connect (PortNumber 3806) None
             "node-it-container-qwerty12345" "ituser" "ituser" "nursebuddy" true
             (Some (Dockerode.stop default_config))))) <= 10
  /\ (total_wait
        (timeline
           (trace (scripted (provisioned_engine db_down)) []
              (verifyDatabaseConnection_with NodeDockerApi.connect (PortNumber 3806) None
                 "node-it-container-qwerty12345" "ituser" "ituser" "nursebuddy" true
                 (Some (Dockerode.stop default_config))))) <= 56684)%Z.
Proof.
  apply (verifier_is_bounded NodeDockerApi.connect (PortNumber 3806) None
           "node-it-container-qwerty12345" "ituser" "ituser" "nursebuddy" true
           (Some (Dockerode.stop default_config))
           (scripted (provisioned_engine db_down)) []).
  - right. reflexivity.
  - apply dockerode_stop_is_untimed.
Defined.

(** *** X4.  The verifier of either variant returns [false] only when
    verification is enabled, exactly 10 rounds of attempt and wait have failed,
    the warning has been logged, and the [stopFn] it was handed is a function
    that ran to completion after that warning. *)
Theorem verifier_returns_false_only_after_teardown
  (connect : PortVal -> option string -> string -> string -> string -> string -> Prog bool)
  (externalPort : PortVal) (currentContainerId : option string)
  (itContainerName dbUsername dbPassword dbName : string)
  (verifyDbConnection : bool) (stopFn : option (Prog unit))
  (env : Env) (h : list Event) :
  connect = Dockerode.connect \/ connect = NodeDockerApi.connect ->
  outcome env h
    (verifyDatabaseConnection_with connect externalPort currentContainerId
       itContainerName dbUsername dbPassword dbName verifyDbConnection stopFn)
  = Resolved (Some false) ->
  verifyDbConnection = true
  /\ exists t le teardown,
       stopFn = Some teardown
       /\ timeline t = failed_rounds 10 500
       /\ outcome env (h ++ t ++ [Ev (Log Warn "DB connection failed:" le)]) teardown
          = Resolved tt
       /\ trace env h
            (verifyDatabaseConnection_with connect externalPort currentContainerId
               itContainerName dbUsername dbPassword dbName verifyDbConnection stopFn)
          = t ++ Ev (Log Warn "DB connection failed:" le)
              :: trace env (h ++ t ++ [Ev (Log Warn "DB connection failed:" le)]) teardown.
Proof.
  intros Hc.
  destruct verifyDbConnection; [| cbn; discriminate].
  assert (Hticks : forall h',
             timeline (trace env h'
                         (connect externalPort currentContainerId itContainerName
                            dbUsername dbPassword dbName)) = [Attempt]).
  { intros h'. destruct Hc as [-> | ->];
      [apply dockerode_connect_ticks | apply node_docker_api_connect_ticks]. }
  pose proof (attempts_timeline connect externalPort currentContainerId itContainerName
                dbUsername dbPassword dbName env Hticks 10 500%Z None h) as Htl.
  unfold outcome, trace. rewrite verify_enabled_run.
  destruct (run env h _) as [[[| le] | e | e] t]; cbn [fst snd]; try discriminate.
  destruct stopFn as [teardown |]; cbn [call_fn run]; [| discriminate].
  destruct (run env (h ++ t ++ [Ev (Log Warn "DB connection failed:" le)]) teardown)
    as [[[] | e | e] ts] eqn:Hrun; cbn [fst snd]; try discriminate.
  intros _. split; [reflexivity |].
  exists t, le, teardown. rewrite Hrun. repeat split. exact Htl.
Qed.

Lemma verifier_returns_false_witness :
  exists t le teardown,
    Some (Dockerode.stop default_config) = Some teardown
    /\ timeline t = failed_rounds 10 500
    /\ outcome (scripted (provisioned_engine db_down))
         ([] ++ t ++ [Ev (Log Warn "DB connection failed:" le)]) teardown
       = Resolved tt
    /\ trace (scripted (provisioned_engine db_down)) []
         (verifyDatabaseConnection_with Dockerode.connect (PortNumber 3806) None
            "node-it-container-qwerty12345" "ituser" "ituser" "nursebuddy" true
            (Some (Dockerode.stop default_config)))
       = t ++ Ev (Log Warn "DB connection failed:" le)
           :: trace (scripted (provisioned_engine db_down))
                ([] ++ t ++ [Ev (Log Warn "DB connection failed:" le)]) teardown.
Proof.
  apply (verifier_returns_false_only_after_teardown Dockerode.connect (PortNumber 3806)
           None "node-it-container-qwerty12345" "ituser" "ituser" "nursebuddy" true
           (Some (Dockerode.stop default_config))
           (scripted (provisioned_engine db_down)) []).
  - left. reflexivity.
  - reflexivity.
Defined.

(** ** The order of teardown and the reach of [restart] *)

Lemma trace_vis {A X : Type} (env : Env) (h : list Event) (c : Call X)
  (k : Result X -> Prog A) :
  trace env h (Vis c k) = Ev c :: trace env (h ++ [Ev c]) (k (env h X c)).
Proof.
  unfold trace. simpl. destruct (run env (h ++ [Ev c]) (k (env h X c))). reflexivity.
Qed.


(** *** X6.  [restart] never provisions anything: in the dockerode variant the
    only request it ever sends to the engine is the restart of the named
    container, whatever is answered; the node-docker-api variant sends the
    restart of the handle it got, or nothing when it got no usable handle. *)
Theorem restart_sends_only_the_restart_request
  (cfg : Config) (env : Env) (h : list Event) :
  engine_requests (trace env h (Dockerode.restart cfg))
  = [Ev (ContainerRestart (itContainerName cfg))]
  /\ engine_requests (trace env h (NodeDockerApi.restart cfg))
     = match env h _ (ContainerGet (itContainerName cfg)) with
       | Ok got =>
           match NodeDockerApi.usable_id got with
           | Some id => [Ev (ContainerRestart id)]
           | None => []
           end
       | Error _ => []
       end.
Proof.
  unfold engine_requests. split.
  - unfold Dockerode.restart. cbn [bind try_catch await]. rewrite trace_vis.
    cbn [filter is_engine_request]. f_equal. apply filter_none, only_trace.
    apply only_try_catch.
    + apply only_bind; [only_calls | intros _].
      apply only_bind; [apply dockerode_verify_no_engine_request |].
      intros ok. destruct (verified ok); constructor.
    + intros e. rewrite this_start_is_undefined. only_calls.
  - unfold NodeDockerApi.restart. cbn [bind try_catch await]. rewrite trace_vis.
    cbn [filter is_engine_request].
    destruct (env h (option ContainerHandle) (ContainerGet (itContainerName cfg)))
      as [got | e]; cbn [bind]; [| reflexivity].
    destruct (NodeDockerApi.usable_id got) as [id |].
    + cbn [bind try_catch await]. rewrite trace_vis.
      cbn [filter is_engine_request]. f_equal. apply filter_none, only_trace.
      apply only_bind; [only_calls | intros _].
      apply only_bind; [apply node_docker_api_verify_no_engine_request |].
      intros ok. destruct (verified ok); constructor.
    + rewrite this_start_is_undefined. reflexivity.
Qed.

(** ** The database the verifier talks to *)

Ltac only_to :=
  repeat first
    [ apply only_bind | apply only_try_catch
    | apply only_await; exact I | apply only_emit; exact I
    | apply Only_Ret | apply Only_Throw | apply Only_Crash
    | apply Only_Vis; [first [exact I | reflexivity] |] | intro
    | match goal with
      | |- Only _ (match ?x with _ => _ end) => destruct x
      end ].

Lemma dockerode_verify_target (cfg : Config) :
  Only (connects_to (Dockerode.parameters cfg))
    (Dockerode.verify cfg (this_member "stop")).
Proof.
  unfold Dockerode.verify, Dockerode.verifyDatabaseConnection.
  apply only_verifier; try (intros; exact I).
  - unfold Dockerode.connect. only_to.
  - rewrite this_stop_is_undefined. constructor.
Qed.

Lemma node_docker_api_verify_target (cfg : Config) :
  Only (connects_to (NodeDockerApi.parameters cfg))
    (NodeDockerApi.verify cfg (this_member "stop")).
Proof.
  unfold NodeDockerApi.verify, NodeDockerApi.verifyDatabaseConnection.
  apply only_verifier; try (intros; exact I).
  - unfold NodeDockerApi.connect, NodeDockerApi.destroy_quietly. only_to.
  - rewrite this_stop_is_undefined. constructor.
Qed.

(** *** X7.  Every database connection that [start] or [restart] of either
    variant opens goes to the host, port, user, password and database that
    [getDbConnectionParameters] reports: the verifier never probes another
    address than the one handed to the caller. *)
Theorem verification_connects_to_the_reported_parameters
  (cfg : Config) (env : Env) (h : list Event) :
  let reported := Dockerode.parameters cfg in
  (forall env' h',
      outcome env' h' (Dockerode.getDbConnectionParameters cfg) = Resolved reported
      /\ outcome env' h' (NodeDockerApi.getDbConnectionParameters cfg) = Resolved reported)
  /\ Forall (connects_to reported) (trace env h (Dockerode.start cfg))
  /\ Forall (connects_to reported) (trace env h (Dockerode.restart cfg))
  /\ Forall (connects_to reported) (trace env h (NodeDockerApi.start cfg))
  /\ Forall (connects_to reported) (trace env h (NodeDockerApi.restart cfg)).
Proof.
  intros reported. subst reported. split; [intros; split; reflexivity |].
  repeat split; apply only_trace.
  - unfold Dockerode.start.
    apply only_bind; [unfold Dockerode.getOrCreateNetwork; only_to | intros network].
    apply only_bind; [only_to | intros container].
    apply only_bind; [only_to | intros _].
    apply only_bind;
      [unfold Dockerode.connectRunningContainerToNetwork; only_to | intros _].
    apply only_bind; [apply dockerode_verify_target | intros ok].
    destruct (verified ok); constructor.
  - unfold Dockerode.restart. apply only_try_catch.
    + apply only_bind; [only_to | intros _].
      apply only_bind; [apply dockerode_verify_target | intros ok].
      destruct (verified ok); constructor.
    + intros e. rewrite this_start_is_undefined. only_to.
  - unfold NodeDockerApi.start.
    apply only_bind; [only_to | intros got].
    apply only_bind.
    + destruct (NodeDockerApi.existing_id got); [constructor |].
      unfold NodeDockerApi.getOrCreateNetwork. only_to.
    + intros [container network].
      apply only_bind; [only_to | intros _].
      apply only_bind;
        [unfold NodeDockerApi.connectRunningContainerToNetwork; only_to | intros _].
      apply only_bind; [apply node_docker_api_verify_target | intros ok].
      destruct (verified ok); constructor.
  - unfold NodeDockerApi.restart.
    apply only_bind; [only_to | intros got].
    destruct (NodeDockerApi.usable_id got).
    + apply only_bind; [only_to | intros _].
      apply only_bind; [apply node_docker_api_verify_target | intros ok].
      destruct (verified ok); constructor.
    + rewrite this_start_is_undefined. only_to.
Qed.

(** ** The schedule grows *)





(** ** Provisioning *)

Lemma engine_request_of_container_request (e : Event) :
  is_engine_request e = false -> is_container_request e = false.
Proof. destruct e as [X c]; destruct c; simpl; congruence. Qed.

Lemma dockerode_tail_sends_no_container_request (cfg : Config) (env : Env)
  (h : list Event) :
  filter is_container_request
    (snd (run env h
            (ok <- Dockerode.verify cfg (this_member "stop") ;;
             if verified ok then Ret (Some (Dockerode.parameters cfg)) else Ret None)))
  = [].
Proof.
  apply filter_none. apply (only_trace env). apply only_bind.
  - eapply only_weaken; [apply engine_request_of_container_request |].
    apply dockerode_verify_no_engine_request.
  - intros ok. destruct (verified ok); constructor.
Qed.

Lemma node_docker_api_tail_sends_no_container_request (cfg : Config) (env : Env)
  (h : list Event) :
  filter is_container_request
    (snd (run env h
            (ok <- NodeDockerApi.verify cfg (this_member "stop") ;;
             if verified ok then Ret (Some (NodeDockerApi.parameters cfg)) else Ret None)))
  = [].
Proof.
  apply filter_none. apply (only_trace env). apply only_bind.
  - eapply only_weaken; [apply engine_request_of_container_request |].
    apply node_docker_api_verify_no_engine_request.
  - intros ok. destruct (verified ok); constructor.
Qed.

(** Closes a branch of [start] that reached the verifier. *)
Ltac quiet_tail w cfg :=
  match goal with
  | |- context [ run (scripted w) ?hh (bind (Dockerode.verify cfg ?s) ?k) ] =>
      let HT := fresh "HT" in
      pose proof (dockerode_tail_sends_no_container_request cfg (scripted w) hh) as HT;
      destruct (run (scripted w) hh (bind (Dockerode.verify cfg s) k));
      cbn in HT |- *; rewrite ?HT; reflexivity
  | |- context [ run (scripted w) ?hh (bind (NodeDockerApi.verify cfg ?s) ?k) ] =>
      let HT := fresh "HT" in
      pose proof (node_docker_api_tail_sends_no_container_request cfg (scripted w) hh)
        as HT;
      destruct (run (scripted w) hh (bind (NodeDockerApi.verify cfg s) k));
      cbn in HT |- *; rewrite ?HT; reflexivity
  end.

(** *** X9.  Against a scripted engine, [start] of the dockerode variant sends
    no container request unless the network was ensured; then it inspects the
    named container and, when the inspection succeeds, starts that very
    container without creating one; only when the inspection fails does it
    send one creation request and start the container the engine created.
    The node-docker-api variant starts the handle it got when that carries a
    [data.Id], and otherwise creates a container (after ensuring the network)
    and starts the created one; it never inspects. *)
Theorem start_reuses_or_creates_the_container
  (w : World) (cfg : Config) (h : list Event) :
  let name := itContainerName cfg in
  let create := Ev (CreateContainer (container_options cfg)) in
  filter is_container_request (trace (scripted w) h (Dockerode.start cfg))
  = match outcome (scripted w) h
            (Dockerode.getOrCreateNetwork (containerNetworkName cfg)) with
    | Resolved _ =>
        match containerInspect_answer w, createContainer_answer w with
        | Ok _, _ => [Ev (ContainerInspect name); Ev (ContainerStart name)]
        | Error _, Ok created =>
            [Ev (ContainerInspect name); create; Ev (ContainerStart created)]
        | Error _, Error _ => [Ev (ContainerInspect name); create]
        end
    | _ => []
    end
  /\ filter is_container_request (trace (scripted w) h (NodeDockerApi.start cfg))
     = match containerGet_answer w with
       | Error _ => []
       | Ok got =>
           match NodeDockerApi.existing_id got with
           | Some id => [Ev (ContainerStart id)]
           | None =>
               match outcome (scripted w) h
                       (NodeDockerApi.getOrCreateNetwork (containerNetworkName cfg)),
                     createContainer_answer w with
               | Resolved _, Ok created => [create; Ev (ContainerStart created)]
               | Resolved _, Error _ => [create]
               | _, _ => []
               end
           end
       end.
Proof.
  intros name create. subst name create. unfold outcome, trace. split.
  - unfold Dockerode.start, Dockerode.getOrCreateNetwork,
      Dockerode.connectRunningContainerToNetwork.
    step.
    destruct (listNetworks_answer w) as [nets | e]; step;
      [destruct (find (fun n => String.eqb (Name n) (containerNetworkName cfg)) nets);
       step |].
    2, 3: destruct (createNetwork_answer w) as [net | e']; step; [| reflexivity].
    all: destruct (containerInspect_answer w) as [[] | e0]; step.
    all: try (destruct (createContainer_answer w) as [created | e1]; step;
              [| reflexivity]).
    all: destruct (containerStart_answer w) as [[] | e2]; step; [| reflexivity].
    all: destruct (currentContainerId cfg) as [id |];
      [destruct (truthy_string id) |]; step.
    all: try (destruct (networkConnect_answer w) as [[] | e3]; step; [| reflexivity]).
    all: quiet_tail w cfg.
  - unfold NodeDockerApi.start, NodeDockerApi.getOrCreateNetwork,
      NodeDockerApi.connectRunningContainerToNetwork.
    step.
    destruct (containerGet_answer w) as [got | e]; step; [| reflexivity].
    destruct (NodeDockerApi.existing_id got) as [c |]; step.
    + destruct (containerStart_answer w) as [[] | e2]; step; [| reflexivity].
      destruct (currentContainerId cfg) as [id |];
        [destruct (truthy_string id) |]; step.
      1: reflexivity.
      all: quiet_tail w cfg.
    + destruct (listNetworks_answer w) as [nets | e]; step;
        [destruct (hd_error (filter (fun n => String.eqb (Name n) (containerNetworkName cfg))
                               nets)) as [n |];
         [destruct (truthy_string (Id n)) |]; step |].
      2, 3, 4: destruct (createNetwork_answer w) as [net | e']; step; [| reflexivity].
      all: destruct (createContainer_answer w) as [created | e1]; step; [| reflexivity].
      all: destruct (containerStart_answer w) as [[] | e2]; step; [| reflexivity].
      all: destruct (currentContainerId cfg) as [id |];
        [destruct (truthy_string id) |]; step.
      all: try (destruct (networkConnect_answer w) as [[] | e3]; step; [| reflexivity]).
      all: quiet_tail w cfg.
Qed.

(** ** Construction *)

(** *** X10.  The constructed [currentContainerId] is the [IT_CONTAINER]
    environment variable when that is set and non-empty, otherwise the option
    when that is given and non-empty, otherwise [null]; it is never an empty
    string.  Likewise [IT_IMAGE_NAME], when set and non-empty, replaces the
    image option, and the image the creation request names is the constructed
    one. *)
Theorem environment_overrides_options (penv : ProcessEnv) (o : Options) :
  let cfg := configure penv o in
  (currentContainerId cfg = None
   \/ exists id, currentContainerId cfg = Some id /\ id <> "")
  /\ currentContainerId cfg
     = (if truthy (IT_CONTAINER penv) then IT_CONTAINER penv
        else if truthy (opt_currentContainerId o) then opt_currentContainerId o
             else None)
  /\ Some (itImageName cfg)
     = (if truthy (IT_IMAGE_NAME penv) then IT_IMAGE_NAME penv
        else Some (default "989173062527.dkr.ecr.eu-west-1.amazonaws.com/it-mysql-v2"
                     (opt_itImageName o)))
  /\ Image (container_options cfg) = itImageName cfg.
Proof.
  intros cfg. subst cfg. unfold configure, js_or.
  cbn [currentContainerId itImageName container_options Image].
  repeat split.
  - destruct (IT_CONTAINER penv) as [s |]; cbn [truthy].
    + destruct (truthy_string s) eqn:Hs.
      * cbn [truthy]. rewrite Hs. right. exists s. split; [reflexivity |].
        intros ->. discriminate.
      * destruct (opt_currentContainerId o) as [s' |]; cbn [truthy]; [| left; reflexivity].
        destruct (truthy_string s') eqn:Hs'; cbn [truthy]; rewrite ?Hs'; [| left; reflexivity].
        right. exists s'. split; [reflexivity |]. intros ->. discriminate.
    + destruct (opt_currentContainerId o) as [s' |]; cbn [truthy]; [| left; reflexivity].
      destruct (truthy_string s') eqn:Hs'; cbn [truthy]; rewrite ?Hs'; [| left; reflexivity].
      right. exists s'. split; [reflexivity |]. intros ->. discriminate.
  - destruct (truthy (IT_CONTAINER penv)) eqn:He.
    + rewrite He. reflexivity.
    + reflexivity.
  - destruct (IT_IMAGE_NAME penv) as [s |]; cbn [truthy default]; [| reflexivity].
    destruct (truthy_string s); reflexivity.
Qed.

(** ** Provisioning comes first *)

Lemma engine_free_split {A : Type} (env : Env) (h : list Event) (p : Prog A) :
  Only (fun e => is_engine_request e = false) p ->
  exists t1 t2,
    trace env h p = t1 ++ t2
    /\ Forall (fun e => is_untimed e = true) t1
    /\ Forall (fun e => is_engine_request e = false) t2.
Proof.
  intros Hp. exists [], (trace env h p). repeat split; [constructor |].
  apply only_trace. exact Hp.
Qed.

(** A program that neither connects nor sleeps, followed by programs whose
    traces split, leaves a trace that splits. *)
Lemma bind_split {A B : Type} (env : Env) (p : Prog A) (f : A -> Prog B)
  (h : list Event) :
  Only (fun e => is_untimed e = true) p ->
  (forall a h', exists t1 t2,
      trace env h' (f a) = t1 ++ t2
      /\ Forall (fun e => is_untimed e = true) t1
      /\ Forall (fun e => is_engine_request e = false) t2) ->
  exists t1 t2,
    trace env h (bind p f) = t1 ++ t2
    /\ Forall (fun e => is_untimed e = true) t1
    /\ Forall (fun e => is_engine_request e = false) t2.
Proof.
  intros Hp Hf. pose proof (only_trace env _ _ Hp h) as Ht.
  unfold trace in *. rewrite run_bind.
  destruct (run env h p) as [[a | e | e] t]; cbn [snd] in *.
  - destruct (Hf a (h ++ t)) as [t1 [t2 [Heq [H1 H2]]]].
    destruct (run env (h ++ t) (f a)) as [o t']; cbn [snd] in *. subst t'.
    exists (t ++ t1), t2. rewrite app_assoc. repeat split; [| exact H2].
    apply Forall_app. split; assumption.
  - exists t, []. rewrite app_nil_r. repeat split; [exact Ht | constructor].
  - exists t, []. rewrite app_nil_r. repeat split; [exact Ht | constructor].
Qed.

Ltac untimed :=
  repeat first
    [ apply only_bind | apply only_try_catch
    | apply only_await; reflexivity | apply only_emit; reflexivity
    | apply Only_Ret | apply Only_Throw | apply Only_Crash
    | apply Only_Vis; [reflexivity |] | intro
    | match goal with
      | |- Only _ (match ?x with _ => _ end) => destruct x
      end ].

(** *** X11.  In either variant the calls of [start] fall into two parts, in
    this order: provisioning, during which no database connection is opened
    and nothing sleeps, and verification, during which no request is sent to
    the container engine.  The database is never probed before the engine
    requests are over, and the engine is left alone once probing has begun. *)
Theorem start_provisions_before_it_verifies
  (cfg : Config) (env : Env) (h : list Event) :
  (exists provisioning verification,
      trace env h (Dockerode.start cfg) = provisioning ++ verification
      /\ Forall (fun e => is_untimed e = true) provisioning
      /\ Forall (fun e => is_engine_request e = false) verification)
  /\ (exists provisioning verification,
        trace env h (NodeDockerApi.start cfg) = provisioning ++ verification
        /\ Forall (fun e => is_untimed e = true) provisioning
        /\ Forall (fun e => is_engine_request e = false) verification).
Proof.
  split.
  - unfold Dockerode.start.
    apply bind_split; [unfold Dockerode.getOrCreateNetwork; untimed | intros network h1].
    apply bind_split; [untimed | intros container h2].
    apply bind_split; [untimed | intros _ h3].
    apply bind_split;
      [unfold Dockerode.connectRunningContainerToNetwork; untimed | intros _ h4].
    apply engine_free_split. apply only_bind.
    + apply dockerode_verify_no_engine_request.
    + intros ok. destruct (verified ok); constructor.
  - unfold NodeDockerApi.start.
    apply bind_split; [untimed | intros got h1].
    apply bind_split.
    + destruct (NodeDockerApi.existing_id got); [constructor |].
      unfold NodeDockerApi.getOrCreateNetwork. untimed.
    + intros [container network] h2.
      apply bind_split; [untimed | intros _ h3].
      apply bind_split;
        [unfold NodeDockerApi.connectRunningContainerToNetwork; untimed | intros _ h4].
      apply engine_free_split. apply only_bind.
      * apply node_docker_api_verify_no_engine_request.
      * intros ok. destruct (verified ok); constructor.
Qed.

(** ** Attaching the external container *)

Lemma engine_request_of_attach (e : Event) :
  is_engine_request e = false -> is_attach e = false.
Proof. destruct e as [X c]; destruct c; simpl; congruence. Qed.

Lemma dockerode_tail_attaches_nothing (cfg : Config) (env : Env) (h : list Event) :
  List.length
    (filter is_attach
       (snd (run env h
               (ok <- Dockerode.verify cfg (this_member "stop") ;;
                if verified ok then Ret (Some (Dockerode.parameters cfg)) else Ret None))))
  = 0.
Proof.
  apply (count_none is_attach). apply (only_trace env). apply only_bind.
  - eapply only_weaken; [apply engine_request_of_attach |].
    apply dockerode_verify_no_engine_request.
  - intros ok. destruct (verified ok); constructor.
Qed.

Lemma node_docker_api_tail_attaches_nothing (cfg : Config) (env : Env) (h : list Event) :
  List.length
    (filter is_attach
       (snd (run env h
               (ok <- NodeDockerApi.verify cfg (this_member "stop") ;;
                if verified ok then Ret (Some (NodeDockerApi.parameters cfg))
                else Ret None))))
  = 0.
Proof.
  apply (count_none is_attach). apply (only_trace env). apply only_bind.
  - eapply only_weaken; [apply engine_request_of_attach |].
    apply node_docker_api_verify_no_engine_request.
  - intros ok. destruct (verified ok); constructor.
Qed.

(** Closes a branch of [start] that reached the verifier. *)
Ltac attach_tail env cfg :=
  match goal with
  | |- context [ run env ?hh (bind (Dockerode.verify cfg ?s) ?k) ] =>
      let HT := fresh "HT" in
      pose proof (dockerode_tail_attaches_nothing cfg env hh) as HT;
      destruct (run env hh (bind (Dockerode.verify cfg s) k));
      cbn in HT |- *; rewrite ?HT; lia
  | |- context [ run env ?hh (bind (NodeDockerApi.verify cfg ?s) ?k) ] =>
      let HT := fresh "HT" in
      pose proof (node_docker_api_tail_attaches_nothing cfg env hh) as HT;
      destruct (run env hh (bind (NodeDockerApi.verify cfg s) k));
      cbn in HT |- *; rewrite ?HT; lia
  | |- _ => cbn; lia
  end.

Ltac attaching :=
  repeat first
    [ apply only_bind | apply only_try_catch
    | apply only_await; first [exact I | reflexivity]
    | apply only_emit; exact I
    | apply Only_Ret | apply Only_Throw | apply Only_Crash
    | apply Only_Vis; [first [exact I | reflexivity] |] | intro
    | match goal with
      | |- Only _ (match ?x with _ => _ end) => destruct x
      end ].

Lemma verifier_call_attaches_nothing (id : option string) (e : Event) :
  is_engine_request e = false -> attaches id e.
Proof. destruct e as [X c]; destruct c; simpl; try exact (fun _ => I); discriminate. Qed.

(** *** X12.  [start] of either variant sends at most one attach request,
    whatever the engine answers, and any attach request it sends names the
    configured external container: without one configured, nothing is ever
    attached. *)
Theorem start_attaches_the_external_container_at_most_once
  (cfg : Config) (env : Env) (h : list Event) :
  (count is_attach (trace env h (Dockerode.start cfg)) <= 1
   /\ Forall (attaches (currentContainerId cfg)) (trace env h (Dockerode.start cfg)))
  /\ (count is_attach (trace env h (NodeDockerApi.start cfg)) <= 1
      /\ Forall (attaches (currentContainerId cfg))
           (trace env h (NodeDockerApi.start cfg))).
Proof.
  repeat split.
  - unfold count, trace, Dockerode.start, Dockerode.getOrCreateNetwork,
      Dockerode.connectRunningContainerToNetwork.
    cbn [run bind try_catch await emit].
    destruct (env h (list NetworkInfo) ListNetworks) as [nets | e];
      cbn [run bind try_catch await emit];
      [destruct (find (fun n => String.eqb (Name n) (containerNetworkName cfg)) nets);
       cbn [run bind try_catch await emit] |].
    all: destruct (currentContainerId cfg) as [id |]; [destruct (truthy_string id) |].
    all: execute env.
    all: attach_tail env cfg.
  - apply only_trace. unfold Dockerode.start.
    apply only_bind; [unfold Dockerode.getOrCreateNetwork; attaching | intros network].
    apply only_bind; [attaching | intros container].
    apply only_bind; [attaching | intros _].
    apply only_bind;
      [unfold Dockerode.connectRunningContainerToNetwork; attaching | intros _].
    apply only_bind.
    + eapply only_weaken; [apply verifier_call_attaches_nothing |].
      apply dockerode_verify_no_engine_request.
    + intros ok. destruct (verified ok); constructor.
  - unfold count, trace, NodeDockerApi.start, NodeDockerApi.getOrCreateNetwork,
      NodeDockerApi.connectRunningContainerToNetwork.
    cbn [run bind try_catch await emit].
    destruct (env h (option ContainerHandle) (ContainerGet (itContainerName cfg)))
      as [got | e]; cbn [run bind try_catch await emit]; [| cbn; lia].
    destruct (NodeDockerApi.existing_id got) as [c |];
      cbn [run bind try_catch await emit].
    + destruct (currentContainerId cfg) as [id |]; [destruct (truthy_string id) |].
      all: execute env.
      all: attach_tail env cfg.
    + match goal with |- context [ env ?hh (list NetworkInfo) ListNetworks ] =>
        destruct (env hh (list NetworkInfo) ListNetworks) as [nets | e] end;
        cbn [run bind try_catch await emit];
        [destruct (hd_error (filter (fun n => String.eqb (Name n) (containerNetworkName cfg))
                               nets)) as [n |];
         [destruct (truthy_string (Id n)) |]; cbn [run bind try_catch await emit] |].
      all: destruct (currentContainerId cfg) as [id |]; [destruct (truthy_string id) |].
      all: execute env.
      all: attach_tail env cfg.
  - apply only_trace. unfold NodeDockerApi.start.
    apply only_bind; [attaching | intros got].
    apply only_bind.
    + destruct (NodeDockerApi.existing_id got); [constructor |].
      unfold NodeDockerApi.getOrCreateNetwork. attaching.
    + intros [container network].
      apply only_bind; [attaching | intros _].
      apply only_bind;
        [unfold NodeDockerApi.connectRunningContainerToNetwork; attaching | intros _].
      apply only_bind.
      * eapply only_weaken; [apply verifier_call_attaches_nothing |].
        apply node_docker_api_verify_no_engine_request.
      * intros ok. destruct (verified ok); constructor.
Qed.
